(** * Row materialisation of rome: [lib/rome/core/rows/rows.py]

    A shallow embedding of the row pipeline ([construct_rows] and the helpers
    it is built from) together with the properties of its specification.

    Python objects are dynamically typed, so the embedding works over one
    universe [pyval] of Python values.  Attribute access that can raise in
    Python is written in the error monad [res].  The collaborators that live
    outside this module (the object store, the tuple builder, the decoder,
    [is_novabase], [uuid.uuid1]) are parameters of the section that embeds
    [construct_rows]. *)

From Stdlib Require Import List String Ascii ZArith Bool Lia.
Import ListNotations.
Open Scope string_scope.
Open Scope list_scope.
Set Warnings "-register-all".

(** ** Python values *)

(** The values the module handles.  [VObject cls attrs] is an attribute-style
    object of class [cls]; [VDict] is a plain [dict] (the only kind for which
    [type(obj) is dict] holds); [VKeyedTuple vals labels] is sqlalchemy's
    [KeyedTuple(vals, labels=labels)]; [VLazy v uuid] is
    [LazyValue(v, uuid)].  A float is kept as its bit pattern: the module
    never computes with it. *)
Inductive pyval : Type :=
| VNone
| VBool (b : bool)
| VInt (z : Z)
| VLong (z : Z)
| VFloat (bits : Z)
| VStr (s : string)
| VUnicode (s : string)
| VList (items : list pyval)
| VDict (entries : list (string * pyval))
| VObject (cls : string) (attrs : list (string * pyval))
| VKeyedTuple (vals : list pyval) (labels : list pyval)
| VLazy (wrapped : pyval) (request_uuid : pyval).

(** [type(v).__name__] *)
Definition type_name (v : pyval) : string :=
  match v with
  | VNone => "NoneType"
  | VBool _ => "bool"
  | VInt _ => "int"
  | VLong _ => "long"
  | VFloat _ => "float"
  | VStr _ => "str"
  | VUnicode _ => "unicode"
  | VList _ => "list"
  | VDict _ => "dict"
  | VObject cls _ => cls
  | VKeyedTuple _ _ => "KeyedTuple"
  | VLazy _ _ => "LazyValue"
  end.

(** [type(v) is dict] *)
Definition is_dict (v : pyval) : bool :=
  match v with VDict _ => true | _ => false end.

(** [v is None] *)
Definition is_none (v : pyval) : bool :=
  match v with VNone => true | _ => false end.

(** ** Exceptions *)

Inductive exn : Type :=
| AttributeError
| TypeError
| IndexError
| KeyError.

Inductive res (A : Type) : Type :=
| Ok (a : A)
| Raise (e : exn).
Arguments Ok {A} a.
Arguments Raise {A} e.

Definition bind {A B} (m : res A) (k : A -> res B) : res B :=
  match m with
  | Ok a => k a
  | Raise e => Raise e
  end.

Notation "x <- m ;; k" := (bind m (fun x => k))
  (at level 61, m at next level, right associativity).

(** A [for] loop whose body can raise: the first exception aborts it. *)
Fixpoint for_each {A B} (f : A -> res B) (l : list A) : res (list B) :=
  match l with
  | [] => Ok []
  | x :: tl => y <- f x ;; ys <- for_each f tl ;; Ok (y :: ys)
  end.

(** [filter] with a predicate that can raise. *)
Fixpoint filter_res {A} (p : A -> res bool) (l : list A) : res (list A) :=
  match l with
  | [] => Ok []
  | x :: tl =>
      b <- p x ;; ys <- filter_res p tl ;; Ok (if b then x :: ys else ys)
  end.

(** ** Attribute tables *)

(** Lookup in an attribute table (or in a [dict] with string keys), applying
    [f] to the value found.  The first binding of a name is the live one. *)
Definition lookup_with {A} (f : pyval -> A) (key : string)
  : list (string * pyval) -> option A :=
  fix go (l : list (string * pyval)) : option A :=
    match l with
    | [] => None
    | (k, v) :: tl => if String.eqb key k then Some (f v) else go tl
    end.

Definition lookup (key : string) (l : list (string * pyval)) : option pyval :=
  lookup_with (fun v => v) key l.

(** The name a value denotes when it is used as an attribute name or as a
    key: [str] and [unicode] of the same characters are the same name. *)
Definition as_name (v : pyval) : option string :=
  match v with
  | VStr s | VUnicode s => Some s
  | _ => None
  end.

(** [text == v] for a [str] on the left. *)
Definition str_eq (text : string) (v : pyval) : bool :=
  match as_name v with
  | Some s => String.eqb text s
  | None => false
  end.

(** Lookup in the instance dictionary of [KeyedTuple(vals, labels=labels)],
    which is filled by [__dict__.update(zip(labels, vals))]: of two slots
    carrying one label the later one is kept.  A label that is not a name
    cannot be reached through [getattr]. *)
Definition keyed_lookup_with {A} (f : pyval -> A) (key : string)
  : list pyval -> list pyval -> option A :=
  fix go (vals labels : list pyval) {struct vals} : option A :=
    match vals, labels with
    | v :: vals', lbl :: labels' =>
        match go vals' labels' with
        | Some r => Some r
        | None => if str_eq key lbl then Some (f v) else None
        end
    | _, _ => None
    end.

(** Lookup among the attributes of an object that the module can reach.  The
    built-in attributes of primitive values, lists and tuples ([real],
    [count], ...) are not modelled: no name looked up by this module is one
    of them. *)
Definition attr_with {A} (f : pyval -> A) (key : string) (obj : pyval)
  : option A :=
  match obj with
  | VObject _ attrs => lookup_with f key attrs
  | VKeyedTuple vals labels => keyed_lookup_with f key vals labels
  | _ => None
  end.

Definition attr (key : string) (obj : pyval) : option pyval :=
  attr_with (fun v => v) key obj.

(** [hasattr(obj, key)] *)
Definition py_hasattr (obj : pyval) (key : string) : bool :=
  match attr key obj with
  | Some _ => true
  | None => false
  end.

(** [obj.key], which raises when the attribute is missing. *)
Definition py_getattr (obj : pyval) (key : string) : res pyval :=
  match attr key obj with
  | Some v => Ok v
  | None => Raise AttributeError
  end.

(** [getattr(obj, key, default)] *)
Definition py_getattr_default (obj : pyval) (key : string) (default : pyval)
  : pyval :=
  match attr key obj with
  | Some v => v
  | None => default
  end.

(** ** The attribute helpers of the module *)

Definition has_attribute (obj : pyval) (key : string) : bool :=
  match obj with
  | VDict entries =>
      match lookup key entries with Some _ => true | None => false end
  | _ => py_hasattr obj key
  end.

Definition get_attribute (obj : pyval) (key : string) (default : pyval)
  : pyval :=
  match obj with
  | VDict entries =>
      match lookup key entries with Some v => v | None => default end
  | _ => py_getattr_default obj key default
  end.

(** [hash(v)] succeeds: lists and dicts are not hashable, and a tuple is
    when its items are. *)
Fixpoint hashable (v : pyval) : bool :=
  match v with
  | VList _ | VDict _ => false
  | VKeyedTuple vals _ => forallb hashable vals
  | _ => true
  end.

(** The same helpers when the key was computed (a table name) and is an
    object.  [hasattr] and [getattr] raise [TypeError] on a key that is not
    a string.  A [dict] is asked with [in] and indexed: its keys are strings,
    so another hashable key is simply absent, and a key that cannot be
    hashed raises. *)
Definition has_attribute_v (obj key : pyval) : res bool :=
  match as_name key with
  | Some k => Ok (has_attribute obj k)
  | None =>
      if is_dict obj && hashable key then Ok false else Raise TypeError
  end.

Definition get_attribute_v (obj key default : pyval) : res pyval :=
  match as_name key with
  | Some k => Ok (get_attribute obj k default)
  | None =>
      if is_dict obj && hashable key then Ok default else Raise TypeError
  end.

(** ** Table names *)

Definition none_name : pyval := VStr "none".

(** [for clause in clauses: return find(clause)], followed by the final
    [return "none"] of [find_table_name]: the loop body returns at its first
    iteration.  A string iterates over its characters and a [dict] over its
    keys, which are strings: a string has none of the four attributes, so the
    answer is ["none"] whether or not there is a first element. *)
Definition first_clause (find : pyval -> res pyval) (clauses : pyval)
  : res pyval :=
  match clauses with
  | VList (clause :: _) => find clause
  | VKeyedTuple (clause :: _) _ => find clause
  | VList [] | VKeyedTuple [] _ => Ok none_name
  | VStr _ | VUnicode _ | VDict _ => Ok none_name
  | VNone | VBool _ | VInt _ | VLong _ | VFloat _ | VObject _ _ | VLazy _ _ =>
      Raise TypeError
  end.

Fixpoint find_table_name (model : pyval) : res pyval :=
  if has_attribute model "__tablename__" then
    py_getattr model "__tablename__"
  else if has_attribute model "table" then
    table <- py_getattr model "table" ;; py_getattr table "name"
  else if has_attribute model "class_" then
    class_ <- py_getattr model "class_" ;; py_getattr class_ "__tablename__"
  else if has_attribute model "clauses" then
    match attr_with (first_clause find_table_name) "clauses" model with
    | Some r => r
    | None => Raise AttributeError
    end
  else Ok none_name.

(** ** Selectables and hints *)

(** Model objects are compared by identity ([in] on a [set] of classes), so a
    selectable refers to its model by reference; the store of the request
    maps a reference to the object it denotes. *)
Definition ref : Type := nat.

(** A selectable of the selection list.  [_function s] is
    [s._function._function], the callable of a computed column; [_model] is
    not read on a computed column. *)
Record Selection : Type := {
  _model : ref;
  _attributes : string;
  _is_function : bool;
  is_hidden : bool;
  _function : list pyval -> pyval
}.

Record Hint : Type := {
  table_name : string;
  attribute : string;
  value : pyval
}.

Definition all_selectables_are_functions (models : list Selection) : bool :=
  forallb _is_function (filter (fun y => negb (is_hidden y)) models).

Definition any_selectable_is_function (models : list Selection) : bool :=
  existsb _is_function (filter (fun y => negb (is_hidden y)) models).

(** One turn of the loop of [extract_models], on the pair
    [(already_processed, result)]. *)
Definition extract_step (acc : list ref * list Selection)
  (selectable : Selection) : list ref * list Selection :=
  let '(already_processed, result) := acc in
  if existsb (Nat.eqb (_model selectable)) already_processed
  then (already_processed, result)
  else (_model selectable :: already_processed, result ++ [selectable]).

Definition extract_models (l : list Selection) : list Selection :=
  snd (fold_left extract_step
         (filter (fun x => negb (_is_function x)) l) ([], [])).

(** ** Deferred values *)

Definition primitive_type_names : list string :=
  ["int"; "str"; "float"; "unicode"].

Section Decoder.

(** [desimplify uuid v] is [get_decoder(request_uuid=uuid).desimplify(v)]. *)
Variable desimplify : pyval -> pyval -> pyval.

(** On a [dict], [has_attribute value "timezone"] is ["timezone" in value]. *)
Definition wrap_with_lazy_value (value : pyval) (only_if_necessary : bool)
  (request_uuid : pyval) : pyval :=
  if is_none value then VNone
  else if only_if_necessary
          && existsb (String.eqb (type_name value)) primitive_type_names
  then value
  else if is_dict value && has_attribute value "timezone"
  then desimplify request_uuid value
  else VLazy value request_uuid.

End Decoder.

(** ** Iteration, indexing and membership *)

(** The elements a [for] loop visits.  A [dict] yields its keys and a string
    its characters; an object without [__iter__] raises. *)
Definition py_iter (v : pyval) : res (list pyval) :=
  match v with
  | VList items | VKeyedTuple items _ => Ok items
  | VDict entries => Ok (map (fun kv => VStr (fst kv)) entries)
  | VStr s => Ok (map (fun c => VStr (String c EmptyString)) (list_ascii_of_string s))
  | VUnicode s =>
      Ok (map (fun c => VUnicode (String c EmptyString)) (list_ascii_of_string s))
  | VNone | VBool _ | VInt _ | VLong _ | VFloat _ | VObject _ _ | VLazy _ _ =>
      Raise TypeError
  end.

(** [container[key]] for a key that is a name. *)
Definition py_getitem (container key : pyval) : res pyval :=
  match container, as_name key with
  | VDict entries, Some k =>
      match lookup k entries with
      | Some v => Ok v
      | None => Raise KeyError
      end
  | VDict _, None => if hashable key then Raise KeyError else Raise TypeError
  | _, _ => Raise TypeError
  end.

(** [text in container] for a [str] on the left: membership in a sequence,
    key membership in a [dict], substring test in a string. *)
Definition py_in (text : string) (container : pyval) : res bool :=
  match container with
  | VList items | VKeyedTuple items _ => Ok (existsb (str_eq text) items)
  | VDict entries =>
      Ok (match lookup text entries with Some _ => true | None => false end)
  | VStr s | VUnicode s =>
      Ok (match index 0 text s with Some _ => true | None => false end)
  | VNone | VBool _ | VInt _ | VLong _ | VFloat _ | VObject _ _ | VLazy _ _ =>
      Raise TypeError
  end.

(** [set.add] on a set of strings, kept as a duplicate-free list. *)
Definition set_add (x : string) (s : list string) : list string :=
  if existsb (String.eqb x) s then s else s ++ [x].

(** ** The row pipeline *)

Section Rows.

(** The objects the model references denote. *)
Variable heap : ref -> pyval.

(** The collaborators of the module. *)
Variables criterions_t order_by_t : Type.
(** [uuid.uuid1()] *)
Variable uuid1 : pyval.
(** [get_objects(tablename, request_uuid=.., skip_loading=False, hints=..)] *)
Variable get_objects : pyval -> pyval -> list (string * pyval) -> pyval.
(** [sql_panda_building_tuples(list_results, labels, criterions, hints,
    metadata=.., order_by=..)] *)
Variable join_building_tuples :
  list pyval -> list pyval -> criterions_t -> list Hint -> order_by_t ->
  list (list pyval).
Variable desimplify : pyval -> pyval -> pyval.
Variable is_novabase : pyval -> bool.
(** [x.__str__()] of an instrumented attribute *)
Variable py_str : pyval -> string.

Definition model_of (selectable : Selection) : pyval :=
  heap (_model selectable).

(** [extract_sub_row(row, selectables, labels)] *)
Definition extract_sub_row (row : pyval) (selectables : list Selection)
  (labels : list pyval) : res pyval :=
  if (1 <? List.length selectables)%nat then
    product <- for_each (fun label => get_attribute_v row label VNone) labels ;;
    Ok (VKeyedTuple product labels)
  else
    match selectables with
    | [] => Raise IndexError
    | first :: _ =>
        model_name <- find_table_name (model_of first) ;;
        get_attribute_v row model_name VNone
    end.

(** *** Fields of the join result *)

(** The selection list as the object [has_attribute] is handed in the
    field loop: a Python [list]. *)
Definition selection_object (s : Selection) : pyval :=
  VObject "Selection"
    [("_model", model_of s); ("_attributes", VStr (_attributes s));
     ("_is_function", VBool (_is_function s));
     ("is_hidden", VBool (is_hidden s))].

Definition models_object (models : list Selection) : pyval :=
  VList (map selection_object models).

(** The [try]/[except] that picks the attributes of a ["*"] request. *)
Definition selected_attributes (selectable : Selection) : res pyval :=
  if String.eqb (_attributes selectable) "*" then
    match py_getattr (model_of selectable) "_sa_class_manager" with
    | Ok manager => Ok manager
    | Raise _ =>
        class_ <- py_getattr (model_of selectable) "class_" ;;
        py_getattr class_ "_sa_class_manager"
    end
  else Ok (VList [VStr (_attributes selectable)]).

(** The body of [for field in selected_attributes], on the set [columns]. *)
Definition add_field (models : list Selection) (selectable : Selection)
  (columns : list string) (field : pyval) : res (list string) :=
  attribute <-
    (if has_attribute (models_object models) "class_" then
       class_ <- py_getattr (model_of selectable) "class_" ;;
       manager <- py_getattr class_ "_sa_class_manager" ;;
       column <- py_getitem manager field ;;
       Ok (Some (py_str column))
     else if has_attribute (models_object models) "_sa_class_manager" then
       manager <- py_getattr (model_of selectable) "_sa_class_manager" ;;
       column <- py_getitem manager field ;;
       Ok (Some (py_str column))
     else Ok None) ;;
  match attribute with
  | Some a => Ok (set_add a columns)
  | None => Ok columns
  end.

Fixpoint add_fields (models : list Selection) (selectable : Selection)
  (columns : list string) (fields : list pyval) : res (list string) :=
  match fields with
  | [] => Ok columns
  | field :: tl =>
      columns' <- add_field models selectable columns field ;;
      add_fields models selectable columns' tl
  end.

(** The first loop of [construct_rows] over [model_set], on the pair
    [(labels, columns)]. *)
Fixpoint join_fields (models model_set : list Selection)
  (labels : list pyval) (columns : list string)
  : res (list pyval * list string) :=
  match model_set with
  | [] => Ok (labels, columns)
  | selectable :: tl =>
      label <- find_table_name (model_of selectable) ;;
      attributes <- selected_attributes selectable ;;
      fields <- py_iter attributes ;;
      columns' <- add_fields models selectable columns fields ;;
      join_fields models tl (labels ++ [label]) columns'
  end.

(** *** Loading objects *)

(** The [lambda] of the filter over [hints]. *)
Definition hint_selected (tablename authorized_secondary_indexes : pyval)
  (x : Hint) : res bool :=
  if str_eq (table_name x) tablename then
    if String.eqb (attribute x) "id" then Ok true
    else py_in (attribute x) authorized_secondary_indexes
  else Ok false.

Definition reduce_hints (selected_hints : list Hint)
  : list (string * pyval) :=
  map (fun x => (attribute x, value x)) selected_hints.

(** The body of the loading loop: the objects of one entity. *)
Definition load_objects (request_uuid : pyval) (hints : list Hint)
  (selectable : Selection) : res pyval :=
  tablename <- find_table_name (model_of selectable) ;;
  let authorized_secondary_indexes :=
    get_attribute (model_of selectable) "_secondary_indexes" (VList []) in
  selected_hints <-
    filter_res (hint_selected tablename authorized_secondary_indexes) hints ;;
  let reduced_hints := reduce_hints selected_hints in
  Ok (get_objects tablename request_uuid reduced_hints).

(** *** Filtering tuples *)

Definition filter_tuples (model_set : list Selection) (labels : list pyval)
  (tuples : list (list pyval)) : res (list pyval) :=
  for_each
    (fun product =>
       extract_sub_row (VKeyedTuple product labels) model_set labels)
    (filter (fun product => (0 <? List.length product)%nat) tuples).

(** Everything [construct_rows] does before it projects: the request id it
    settles on, and [rows]. *)
Definition request_id (request_uuid : pyval) : pyval :=
  if is_none request_uuid then uuid1 else request_uuid.

Definition materialize_rows (models : list Selection)
  (criterions : criterions_t) (hints : list Hint) (request_uuid : pyval)
  (order_by : order_by_t) : res (list pyval) :=
  let request_uuid := request_id request_uuid in
  let model_set := extract_models models in
  fields <- join_fields models model_set [] [] ;;
  let labels := fst fields in
  list_results <- for_each (load_objects request_uuid hints) model_set ;;
  let tuples :=
    join_building_tuples list_results labels criterions hints order_by in
  filter_tuples model_set labels tuples.

(** *** Selecting attributes *)

Definition showable_selection (models : list Selection) : list Selection :=
  filter (fun x => negb (is_hidden x) || _is_function x) models.

(** The single row of the branch taken when a visible selectable is a
    function. *)
Definition function_row (showable : list Selection) (rows : list pyval)
  : list pyval :=
  map (fun selection =>
         if _is_function selection then _function selection rows
         else VNone)
      showable.

(** What one selectable adds to [final_row] for [row]: one entry, or
    nothing when the sub-value is [None]. *)
Definition project_selection (rows : list pyval) (row : pyval)
  (selection : Selection) : res (list pyval) :=
  if _is_function selection then Ok [_function selection rows]
  else
    current_table_name <- find_table_name (model_of selection) ;;
    let key := current_table_name in
    composite <-
      (if negb (is_novabase row) then has_attribute_v row key
       else Ok false) ;;
    value <- (if composite : bool then get_attribute_v row key VNone
              else Ok row) ;;
    if negb (is_none value) then
      if negb (String.eqb (_attributes selection) "*") then
        Ok [get_attribute value (_attributes selection) VNone]
      else Ok [value]
    else Ok [].

(** [final_row] of one row before it is wrapped. *)
Definition project_row (showable : list Selection) (rows : list pyval)
  (row : pyval) : res (list pyval) :=
  entries <- for_each (project_selection rows row) showable ;;
  Ok (List.concat entries).

(** The [lambda] mapped over [final_row]: [only_if_necessary] keeps its
    default. *)
Definition wrap_entry (request_uuid x : pyval) : pyval :=
  wrap_with_lazy_value desimplify x true request_uuid.

(** What one row adds to [final_rows]. *)
Definition emit_row (showable : list Selection) (request_uuid : pyval)
  (rows : list pyval) (row : pyval) : res (list pyval) :=
  final_row <- project_row showable rows row ;;
  let final_row := map (wrap_entry request_uuid) final_row in
  if (List.length showable =? 1)%nat then Ok final_row
  else Ok [VList final_row].

(** The two branches of the projection, from [rows] on. *)
Definition select_attributes (models : list Selection)
  (request_uuid : pyval) (rows : list pyval) : res (list pyval) :=
  let showable := showable_selection models in
  if any_selectable_is_function models then
    let final_row := function_row showable rows in
    let final_row := map (desimplify request_uuid) final_row in
    Ok [VList final_row]
  else
    contributions <-
      for_each (emit_row showable request_uuid rows) rows ;;
    Ok (List.concat contributions).

Definition construct_rows (models : list Selection)
  (criterions : criterions_t) (hints : list Hint) (request_uuid : pyval)
  (order_by : order_by_t) : res (list pyval) :=
  rows <- materialize_rows models criterions hints request_uuid order_by ;;
  select_attributes models (request_id request_uuid) rows.

End Rows.

(** ** A sample request *)

(** Two mapped classes in the style of the nova fixtures, and objects of the
    other shapes [find_table_name] looks at. *)
Module Sample.

Definition Service : pyval :=
  VObject "DeclarativeMeta"
    [("__tablename__", VStr "services");
     ("_sa_class_manager",
      VDict [("id", VObject "InstrumentedAttribute" []);
             ("host", VObject "InstrumentedAttribute" [])]);
     ("_secondary_indexes", VList [VStr "host"])].

Definition ComputeNode : pyval :=
  VObject "DeclarativeMeta"
    [("__tablename__", VStr "compute_nodes");
     ("_sa_class_manager",
      VDict [("id", VObject "InstrumentedAttribute" []);
             ("service_id", VObject "InstrumentedAttribute" [])])].

Definition heap (r : ref) : pyval :=
  match r with
  | 0 => Service
  | 1 => ComputeNode
  | _ => VNone
  end.

Definition column (model : ref) (attributes : string) (hidden : bool)
  : Selection :=
  {| _model := model; _attributes := attributes; _is_function := false;
     is_hidden := hidden; _function := fun _ => VNone |}.

(** [count] over the row set. *)
Definition count (hidden : bool) : Selection :=
  {| _model := 0; _attributes := "*"; _is_function := true;
     is_hidden := hidden;
     _function := fun rows => VInt (Z.of_nat (List.length rows)) |}.

Definition service_all : Selection := column 0 "*" false.
Definition service_host : Selection := column 0 "host" false.
Definition node_all : Selection := column 1 "*" false.

(** A table descriptor, a mapper and a clause list. *)
Definition table_only : pyval :=
  VObject "Alias" [("table", VObject "Table" [("name", VStr "services")])].
Definition mapper : pyval :=
  VObject "Mapper" [("class_", Service)].
Definition unresolved : pyval := VObject "Label" [].
Definition clause_list (clauses : list pyval) : pyval :=
  VObject "ClauseList" [("clauses", VList clauses)].

(** Stored objects. *)
Definition service (id : Z) (host : string) : pyval :=
  VDict [("id", VInt id); ("host", VStr host)].
Definition node (id service_id : Z) : pyval :=
  VDict [("id", VInt id); ("service_id", VInt service_id)].

Definition hints : list Hint :=
  [ {| table_name := "services"; attribute := "id"; value := VInt 1 |};
    {| table_name := "services"; attribute := "host"; value := VStr "host1" |};
    {| table_name := "services"; attribute := "topic"; value := VStr "t" |};
    {| table_name := "compute_nodes"; attribute := "id"; value := VInt 7 |} ].

(** Collaborators: a store with two services and a node, the plain
    cartesian product as tuple builder, and a decoder that tags what it
    decodes. *)
Definition get_objects (tablename request_uuid : pyval)
  (hints : list (string * pyval)) : pyval :=
  if str_eq "services" tablename
  then VList [service 1 "host1"; service 2 "host2"]
  else if str_eq "compute_nodes" tablename then VList [node 7 1]
  else VList [].

Definition items (v : pyval) : list pyval :=
  match v with VList l => l | _ => [] end.

Fixpoint product (collections : list pyval) : list (list pyval) :=
  match collections with
  | [] => [[]]
  | c :: tl =>
      flat_map (fun x => map (fun rest => x :: rest) (product tl)) (items c)
  end.

Definition building_tuples (list_results labels : list pyval)
  (criterions : unit) (hints : list Hint) (order_by : unit)
  : list (list pyval) :=
  match labels with
  | [] => []
  | _ => product list_results
  end.

Definition desimplify (request_uuid v : pyval) : pyval :=
  VObject "Decoded" [("request", request_uuid); ("payload", v)].

Definition is_novabase (v : pyval) : bool :=
  has_attribute v "novabase_classname".

Definition py_str (v : pyval) : string := type_name v.

Definition request : pyval := VStr "req-1".

(** The label each sample column resolves to. *)
Definition label_of (s : Selection) : string :=
  if Nat.eqb (_model s) 0 then "services" else "compute_nodes".

(** A row of the join of the two tables. *)
Definition joined (service node : pyval) : pyval :=
  VKeyedTuple [service; node] [VStr "services"; VStr "compute_nodes"].

Definition run (models : list Selection) : res (list pyval) :=
  construct_rows heap unit unit (VStr "fresh") get_objects building_tuples
    desimplify is_novabase py_str models tt hints request tt.

End Sample.

(** ** The four shapes of a model, as the specification lists them *)

(** [resolves_to model name]: [model] has one of the shapes, tried in this
    order, and [name] is what the shape designates.  A composite stands for
    its first clause; without any clause, or without any of the four
    attributes, the name is the sentinel. *)
Inductive resolves_to : pyval -> pyval -> Prop :=
| resolves_named model name :
    attr "__tablename__" model = Some name ->
    resolves_to model name
| resolves_table model table name :
    has_attribute model "__tablename__" = false ->
    attr "table" model = Some table ->
    attr "name" table = Some name ->
    resolves_to model name
| resolves_class model class_ name :
    has_attribute model "__tablename__" = false ->
    has_attribute model "table" = false ->
    attr "class_" model = Some class_ ->
    attr "__tablename__" class_ = Some name ->
    resolves_to model name
| resolves_clause model clause others name :
    has_attribute model "__tablename__" = false ->
    has_attribute model "table" = false ->
    has_attribute model "class_" = false ->
    attr "clauses" model = Some (VList (clause :: others)) ->
    resolves_to clause name ->
    resolves_to model name
| resolves_no_clause model :
    has_attribute model "__tablename__" = false ->
    has_attribute model "table" = false ->
    has_attribute model "class_" = false ->
    attr "clauses" model = Some (VList []) ->
    resolves_to model none_name
| resolves_nothing model :
    has_attribute model "__tablename__" = false ->
    has_attribute model "table" = false ->
    has_attribute model "class_" = false ->
    has_attribute model "clauses" = false ->
    resolves_to model none_name.

(** ** Deduplication, as the specification words it *)

(** Keep a selectable the first time its entity is seen and skip the later
    ones. *)
Fixpoint first_occurrences (l : list Selection) : list Selection :=
  match l with
  | [] => []
  | s :: tl =>
      s :: filter (fun x => negb (Nat.eqb (_model x) (_model s)))
             (first_occurrences tl)
  end.

(** The primitives of the specification: numeric, string or boolean. *)
Definition primitive (v : pyval) : bool :=
  match v with
  | VBool _ | VInt _ | VLong _ | VFloat _ | VStr _ | VUnicode _ => true
  | _ => false
  end.

(** The entity of [x] is not among the references [seen]. *)
Definition unseen (seen : list ref) (x : Selection) : bool :=
  negb (existsb (Nat.eqb (_model x)) seen).

(** ** The synthesized row, as the specification words it *)

(** The one row of a request with a visible function, read off the
    selection list itself: a function gives its result on the whole row
    set, hidden or not; a column that is not hidden gives [None]; a hidden
    column gives no entry. *)
Fixpoint synthesized_row (models : list Selection) (rows : list pyval)
  : list pyval :=
  match models with
  | [] => []
  | selection :: others =>
      if _is_function selection
      then _function selection rows :: synthesized_row others rows
      else if is_hidden selection
           then synthesized_row others rows
           else VNone :: synthesized_row others rows
  end.

(** A column that is hidden: it has no entry in the answer. *)
Definition hidden_column (selection : Selection) : bool :=
  is_hidden selection && negb (_is_function selection).

(** ** Hints, as the specification words it *)


Definition acceptedb (tablename : pyval) (secondary_indexes : list pyval)
  (x : Hint) : bool :=
  str_eq (table_name x) tablename
  && (String.eqb (attribute x) "id"
      || existsb (str_eq (attribute x)) secondary_indexes).

(** ** Projection, as the specification words it *)

Section Projection.

Variable is_novabase : pyval -> bool.

(** The sub-value of a row for an entity: what the row holds under the
    label when it is a composite with that label, else the row itself. *)
Definition sub_value (row : pyval) (label : string) : pyval :=
  if negb (is_novabase row) && has_attribute row label
  then get_attribute row label VNone
  else row.

(** The value a present sub-value is projected to. *)
Definition projected (sub : pyval) (attributes : string) : pyval :=
  if String.eqb attributes "*" then sub
  else get_attribute sub attributes VNone.

(** The entries a column adds to the projected list of a row. *)
Definition column_entries (row : pyval) (label attributes : string)
  : list pyval :=
  let sub := sub_value row label in
  if is_none sub then [] else [projected sub attributes].

(** What a selectable of the visible selection adds for a row, when
    [label_of] gives the label of its entity. *)
Definition entries_of (label_of : Selection -> string) (rows : list pyval)
  (row : pyval) (selection : Selection) : list pyval :=
  if _is_function selection then [_function selection rows]
  else column_entries row (label_of selection) (_attributes selection).

(** The projected list of a row, before its entries are wrapped. *)
Definition projected_list (label_of : Selection -> string)
  (showable : list Selection) (rows : list pyval) (row : pyval)
  : list pyval :=
  flat_map (entries_of label_of rows row) showable.

(** [label_of] gives, for every column of [showable], the name its entity
    resolves to in the store [heap]. *)
Definition labelled (heap : ref -> pyval) (label_of : Selection -> string)
  (showable : list Selection) : Prop :=
  forall selection,
    In selection showable -> _is_function selection = false ->
    exists key,
      find_table_name (heap (_model selection)) = Ok key /\
      as_name key = Some (label_of selection).

End Projection.

(** ** The other helpers of the module *)

(** [type(item) == type([])] *)
Definition is_list (v : pyval) : bool :=
  match v with VList _ => true | _ => false end.

(** What [flatten] adds to [new_lis] for one item: the flattened content of
    a list, the item itself otherwise. *)
Fixpoint flatten_item (item : pyval) : list pyval :=
  match item with
  | VList lis => flat_map flatten_item lis
  | _ => [item]
  end.

Definition flatten (lis : list pyval) : list pyval :=
  flat_map flatten_item lis.

Section Intersect.

(** [py_eq val x]: the test [in] makes between [val] and an item [x] of the
    list, identity or [val == x], whose outcome depends on the classes of
    the two objects. *)
Variable py_eq : pyval -> pyval -> bool.

Definition intersect (b1 b2 : list pyval) : list pyval :=
  filter (fun val => existsb (py_eq val) b2) b1.

End Intersect.

(** [needle in s] on two strings *)
Definition str_contains (needle s : string) : bool :=
  match index 0 needle s with Some _ => true | None => false end.

(** [s.split(sep)] for a separator of one character *)
Fixpoint split (sep : ascii) (s : string) : list string :=
  match s with
  | EmptyString => [EmptyString]
  | String c s' =>
      if Ascii.eqb c sep then EmptyString :: split sep s'
      else
        match split sep s' with
        | part :: parts => String c part :: parts
        | [] => [String c EmptyString]
        end
  end.

(** [parts[i]] *)
Definition item (parts : list string) (i : nat) : res string :=
  match nth_error parts i with
  | Some part => Ok part
  | None => Raise IndexError
  end.

(** A [for] loop whose body can raise, in the form that lets the body be
    the function under definition. *)
Definition traverse {A B} (f : A -> res B) : list A -> res (list B) :=
  fix go (l : list A) : res (list B) :=
    match l with
    | [] => Ok []
    | x :: tl => y <- f x ;; ys <- go tl ;; Ok (y :: ys)
    end.

(** [map(lambda x: extract(x), exps)].  The keys of a [dict] and the
    characters of a string are strings, which are neither of the two
    expression classes: each of them maps to [[]]. *)
Definition map_exps (extract : pyval -> res pyval) (exps : pyval)
  : res pyval :=
  match exps with
  | VList items | VKeyedTuple items _ =>
      results <- traverse extract items ;; Ok (VList results)
  | VDict entries => Ok (VList (map (fun _ => VList []) entries))
  | VStr s | VUnicode s =>
      Ok (VList (map (fun _ => VList []) (list_ascii_of_string s)))
  | VNone | VBool _ | VInt _ | VLong _ | VFloat _ | VObject _ _ | VLazy _ _ =>
      Raise TypeError
  end.

Section Criteria.

(** [str(term)] *)
Variable py_str : pyval -> string.

Definition extract_table_data (term : pyval) : res pyval :=
  let term_value := py_str term in
  if str_contains "." term_value then
    table <- item (split "."%char term_value) 0 ;;
    column <- item (split "."%char term_value) 1 ;;
    Ok (VDict [("table", VStr table); ("column", VStr column)])
  else Ok VNone.

(** [type(exp) is C]: a class is known by its name. *)
Definition instance_of (exp : pyval) (class_name : string) : bool :=
  String.eqb (type_name exp) class_name.

Fixpoint extract_joining_criterion (exp : pyval) : res pyval :=
  if instance_of exp "BooleanExpression" then
    match attr_with (map_exps extract_joining_criterion) "exps" exp with
    | Some r => r
    | None => Raise AttributeError
    end
  else if instance_of exp "BinaryExpression" then
    left <- py_getattr exp "left" ;;
    left_data <- extract_table_data left ;;
    right <- py_getattr exp "right" ;;
    right_data <- extract_table_data right ;;
    Ok (VList [VList [left_data; right_data]])
  else Ok (VList []).

End Criteria.

Definition extract_joining_criterion_from_relationship
  (rel local_table : pyval) : res pyval :=
  local_fk_field <- py_getattr rel "local_fk_field" ;;
  let local_tabledata :=
    VDict [("table", local_table); ("column", local_fk_field)] in
  remote_object_tablename <- py_getattr rel "remote_object_tablename" ;;
  remote_object_field <- py_getattr rel "remote_object_field" ;;
  let remote_tabledata :=
    VDict [("table", remote_object_tablename);
           ("column", remote_object_field)] in
  Ok (VList [local_tabledata; remote_tabledata]).

(** The characters of a string hold no dot. *)
Definition dot_free (s : string) : Prop :=
  ~ In "."%char (list_ascii_of_string s).

(** What [extract_table_data] returns: [None], or a [dict] with a table and
    a column. *)
Definition table_data (v : pyval) : Prop :=
  v = VNone \/
  exists table column,
    v = VDict [("table", VStr table); ("column", VStr column)].

(** The flattened content of a criterion: table data, an even number of
    them. *)
Definition paired (r : pyval) : Prop :=
  exists content,
    r = VList content /\
    Forall table_data (flatten content) /\
    Nat.even (List.length (flatten content)) = true.

(** [x in v] is defined: [v] is a sequence, a [dict] or a string. *)
Definition container (v : pyval) : bool :=
  match v with
  | VList _ | VKeyedTuple _ _ | VDict _ | VStr _ | VUnicode _ => true
  | _ => false
  end.

(** [len(product) > 0] *)
Definition not_empty (product : list pyval) : bool :=
  (0 <? List.length product)%nat.

(** The first slot of a tuple. *)
Definition first_slot (product : list pyval) : pyval :=
  match product with
  | slot :: _ => slot
  | [] => VNone
  end.

(** The value a composite row holds under a label. *)
Definition slot_of (row label : pyval) : pyval :=
  match as_name label with
  | Some name => get_attribute row name VNone
  | None => VNone
  end.

(** The label a selectable is projected under: the name of its table, when
    it resolves to one. *)
Definition label_in (heap : ref -> pyval) (s : Selection) : string :=
  match find_table_name (heap (_model s)) with
  | Ok key => match as_name key with Some name => name | None => "" end
  | Raise _ => ""
  end.

(** The values an object holds directly. *)
Definition direct_sub (sub v : pyval) : Prop :=
  match v with
  | VList items => In sub items
  | VDict entries | VObject _ entries => In sub (map snd entries)
  | VKeyedTuple vals labels => In sub vals \/ In sub labels
  | VLazy wrapped request_uuid => sub = wrapped \/ sub = request_uuid
  | _ => False
  end.

(** ** Sample criteria *)

(** A join condition between the two sample tables, the relationship that
    declares it, and a conjunction that holds it. *)
Module SampleCriteria.

Definition column_term (text : string) : pyval :=
  VObject "Column" [("text", VStr text)].

(** [str] of a term: its text when it is a column. *)
Definition py_str (v : pyval) : string :=
  match attr "text" v with
  | Some (VStr text) => text
  | _ => type_name v
  end.

Definition binary (left right : pyval) : pyval :=
  VObject "BinaryExpression" [("left", left); ("right", right)].

Definition boolean (exps : list pyval) : pyval :=
  VObject "BooleanExpression" [("exps", VList exps)].

Definition join_on : pyval :=
  binary (column_term "compute_nodes.service_id") (column_term "services.id").

Definition relationship : pyval :=
  VObject "Relationship"
    [("local_fk_field", VStr "service_id");
     ("remote_object_tablename", VStr "services");
     ("remote_object_field", VStr "id")].

End SampleCriteria.

(** ** Entities the pipeline can load *)

(** The entity of a selectable resolves to a name, its attributes can be
    listed, and the secondary indexes it declares, if any, are a list. *)
Definition loadable (heap : ref -> pyval) (selectable : Selection) : Prop :=
  (exists key name,
      find_table_name (heap (_model selectable)) = Ok key /\
      as_name key = Some name) /\
  (exists fields,
      (attributes <- selected_attributes heap selectable ;;
       py_iter attributes) = Ok fields) /\
  (exists indexes,
      get_attribute (heap (_model selectable)) "_secondary_indexes" (VList [])
      = VList indexes).

(** * Properties *)

(** ** The error monad *)

Lemma bind_ok {A B} (m : res A) (k : A -> res B) (b : B) :
  bind m k = Ok b -> exists a, m = Ok a /\ k a = Ok b.
Proof.
  destruct m as [a | e]; simpl; intro H.
  - exists a; split; [reflexivity | exact H].
  - discriminate H.
Qed.

Lemma for_each_total {A B} (f : A -> B) (l : list A) :
  for_each (fun x => Ok (f x)) l = Ok (map f l).
Proof.
  induction l as [| x tl IH]; simpl.
  - reflexivity.
  - rewrite IH. reflexivity.
Qed.

Lemma for_each_ext {A B} (f g : A -> res B) (l : list A) :
  (forall x, In x l -> f x = g x) -> for_each f l = for_each g l.
Proof.
  induction l as [| x tl IH]; simpl; intro H.
  - reflexivity.
  - rewrite (H x) by (left; reflexivity).
    rewrite IH by (intros y Hy; apply H; right; exact Hy).
    reflexivity.
Qed.

Lemma for_each_returns {A B} (f : A -> res B) (l : list A) :
  (forall x, In x l -> exists y, f x = Ok y) ->
  exists ys, for_each f l = Ok ys.
Proof.
  induction l as [| a tl IH]; intro H; simpl.
  - exists []. reflexivity.
  - destruct (H a (or_introl eq_refl)) as [y Hy].
    destruct IH as [ys Hys]; [intros x Hx; apply H; right; exact Hx |].
    exists (y :: ys). rewrite Hy, Hys. reflexivity.
Qed.

Lemma filter_res_total {A} (p : A -> bool) (l : list A) :
  filter_res (fun x => Ok (p x)) l = Ok (filter p l).
Proof.
  induction l as [| x tl IH]; simpl.
  - reflexivity.
  - rewrite IH. simpl. reflexivity.
Qed.

Lemma filter_res_ext {A} (p q : A -> res bool) (l : list A) :
  (forall x, In x l -> p x = q x) -> filter_res p l = filter_res q l.
Proof.
  induction l as [| x tl IH]; simpl; intro H.
  - reflexivity.
  - rewrite (H x) by (left; reflexivity).
    rewrite IH by (intros y Hy; apply H; right; exact Hy).
    reflexivity.
Qed.

(** ** Deferred values *)

(** C10: a [None] value comes back as [None], whatever the flag, the request
    id and the decoder: it is neither wrapped nor decoded. *)
Theorem wrap_none_is_none :
  forall (desimplify : pyval -> pyval -> pyval) (only_if_necessary : bool)
         (request_uuid : pyval),
    wrap_with_lazy_value desimplify VNone only_if_necessary request_uuid
    = VNone.
Proof.
  intros desimplify only_if_necessary request_uuid.
  unfold wrap_with_lazy_value. simpl. reflexivity.
Qed.

(** A boolean is a primitive of the specification, and it is deferred. *)
Lemma wrap_bool_is_deferred :
  primitive (VBool true) = true /\
  wrap_with_lazy_value Sample.desimplify (VBool true) true Sample.request
  = VLazy (VBool true) Sample.request /\
  wrap_with_lazy_value Sample.desimplify (VBool true) true Sample.request
  <> VBool true.
Proof.
  repeat split. discriminate.
Qed.

Lemma in_primitive_type_names (name : string) :
  existsb (String.eqb name) primitive_type_names = true <->
  In name primitive_type_names.
Proof.
  rewrite existsb_exists. split.
  - intros [x [Hin Heq]]. apply String.eqb_eq in Heq. subst x. exact Hin.
  - intro Hin. exists name. split; [exact Hin | apply String.eqb_refl].
Qed.

(** C3 (as the code has it): a value that is not [None] passes through when
    the name of its type is [int], [str], [float] or [unicode]; otherwise a
    [dict] with the key [timezone] is decoded at once for the request id;
    every other value, a boolean or a [long] included, becomes a
    [LazyValue] carrying the request id. *)
Theorem wrap_cases :
  forall (desimplify : pyval -> pyval -> pyval) (value request_uuid : pyval),
    value <> VNone ->
    let wrapped := wrap_with_lazy_value desimplify value true request_uuid in
    (In (type_name value) primitive_type_names -> wrapped = value) /\
    (forall entries item,
        value = VDict entries -> lookup "timezone" entries = Some item ->
        wrapped = desimplify request_uuid value) /\
    (~ In (type_name value) primitive_type_names ->
     (forall entries, value = VDict entries ->
                      lookup "timezone" entries = None) ->
     wrapped = VLazy value request_uuid) /\
    (forall b, value = VBool b -> wrapped = VLazy value request_uuid) /\
    (forall z, value = VLong z -> wrapped = VLazy value request_uuid).
Proof.
  intros desimplify value request_uuid Hnone wrapped.
  assert (Hstep : wrapped =
            if existsb (String.eqb (type_name value)) primitive_type_names
            then value
            else if is_dict value && has_attribute value "timezone"
                 then desimplify request_uuid value
                 else VLazy value request_uuid).
  { unfold wrapped, wrap_with_lazy_value.
    destruct value; try reflexivity. contradiction Hnone; reflexivity. }
  repeat split.
  - intro Hin. apply in_primitive_type_names in Hin.
    rewrite Hstep, Hin. reflexivity.
  - intros entries item -> Hkey. rewrite Hstep. simpl. rewrite Hkey.
    reflexivity.
  - intros Hprim Hdict. rewrite Hstep.
    destruct (existsb (String.eqb (type_name value)) primitive_type_names)
      eqn:E.
    + apply in_primitive_type_names in E. contradiction.
    + destruct value; try reflexivity.
      simpl. rewrite (Hdict entries eq_refl). reflexivity.
  - intros b ->. rewrite Hstep. reflexivity.
  - intros z ->. rewrite Hstep. reflexivity.
Qed.

Lemma wrap_cases_witness :
  wrap_with_lazy_value Sample.desimplify (VInt 3) true Sample.request
  = VInt 3.
Proof.
  apply (wrap_cases Sample.desimplify (VInt 3) Sample.request).
  - discriminate.
  - simpl. left. reflexivity.
Defined.

(** ** Table names *)

Lemma attr_with_map {A} (f : pyval -> A) (key : string) (obj : pyval) :
  attr_with f key obj = option_map f (attr key obj).
Proof.
  unfold attr. destruct obj; simpl; try reflexivity.
  - induction attrs as [| [k v] tl IH]; simpl.
    + reflexivity.
    + destruct (String.eqb key k); [reflexivity | exact IH].
  - revert labels. induction vals as [| v tl IH]; intros labels; simpl.
    + reflexivity.
    + destruct labels as [| lbl labels']; [reflexivity |].
      rewrite IH.
      destruct (keyed_lookup_with (fun v0 => v0) key tl labels'); simpl.
      * reflexivity.
      * destruct (str_eq key lbl); reflexivity.
Qed.

(** The body of [find_table_name], one call deep. *)
Lemma find_table_name_unfold (model : pyval) :
  find_table_name model =
  if has_attribute model "__tablename__" then
    py_getattr model "__tablename__"
  else if has_attribute model "table" then
    table <- py_getattr model "table" ;; py_getattr table "name"
  else if has_attribute model "class_" then
    class_ <- py_getattr model "class_" ;; py_getattr class_ "__tablename__"
  else if has_attribute model "clauses" then
    clauses <- py_getattr model "clauses" ;;
    first_clause find_table_name clauses
  else Ok none_name.
Proof.
  assert (Hclauses :
            match attr_with (first_clause find_table_name) "clauses" model with
            | Some r => r
            | None => Raise AttributeError
            end
            = (clauses <- py_getattr model "clauses" ;;
               first_clause find_table_name clauses)).
  { rewrite attr_with_map. unfold py_getattr.
    destruct (attr "clauses" model); reflexivity. }
  destruct model; simpl; try reflexivity;
    repeat match goal with
           | |- (if ?c then _ else _) = _ => destruct c
           end;
    try reflexivity; exact Hclauses.
Qed.

Lemma attr_has_attribute (key : string) (model v : pyval) :
  attr key model = Some v -> has_attribute model key = true.
Proof.
  intro H.
  destruct model; try (unfold attr in H; simpl in H; discriminate H);
    unfold has_attribute, py_hasattr; rewrite H; reflexivity.
Qed.

(** A composite whose first clause has no name and whose second clause has
    one: the answer is the sentinel, not the name of the second clause. *)
Lemma find_table_name_first_clause_only :
  find_table_name Sample.unresolved = Ok (VStr "none") /\
  find_table_name Sample.Service = Ok (VStr "services") /\
  find_table_name (Sample.clause_list [Sample.unresolved; Sample.Service])
  = Ok (VStr "none") /\
  find_table_name (Sample.clause_list [Sample.unresolved; Sample.Service])
  <> Ok (VStr "services").
Proof.
  repeat split. discriminate.
Qed.

(** A table descriptor without a name makes the lookup raise. *)
Lemma find_table_name_raises :
  find_table_name (VObject "Alias" [("table", VObject "Table" [])])
  = Raise AttributeError /\
  find_table_name (VDict [("__tablename__", VStr "services")])
  = Raise AttributeError.
Proof.
  split; reflexivity.
Qed.

(** C6 (as the code has it): a model of one of the four shapes resolves to
    the name its shape designates, the shapes being tried in the order
    [__tablename__], [table.name], [class_.__tablename__], [clauses]; a
    composite resolves to whatever its first clause resolves to; a model
    with none of the four attributes, or with an empty clause list, resolves
    to ["none"]. *)
Theorem find_table_name_shapes :
  forall model name,
    resolves_to model name -> find_table_name model = Ok name.
Proof.
  intros model name H.
  induction H as
    [ model name Hname
    | model table name H0 Htable Hname
    | model class_ name H0 H1 Hclass Hname
    | model clause others name H0 H1 H2 Hclauses Hclause IH
    | model H0 H1 H2 Hclauses
    | model H0 H1 H2 H3 ];
    rewrite find_table_name_unfold.
  - rewrite (attr_has_attribute _ _ _ Hname).
    unfold py_getattr. rewrite Hname. reflexivity.
  - rewrite H0, (attr_has_attribute _ _ _ Htable).
    unfold py_getattr. rewrite Htable. simpl. rewrite Hname. reflexivity.
  - rewrite H0, H1, (attr_has_attribute _ _ _ Hclass).
    unfold py_getattr. rewrite Hclass. simpl. rewrite Hname. reflexivity.
  - rewrite H0, H1, H2, (attr_has_attribute _ _ _ Hclauses).
    unfold py_getattr. rewrite Hclauses. simpl. exact IH.
  - rewrite H0, H1, H2, (attr_has_attribute _ _ _ Hclauses).
    unfold py_getattr. rewrite Hclauses. reflexivity.
  - rewrite H0, H1, H2, H3. reflexivity.
Qed.

Lemma find_table_name_shapes_witness :
  find_table_name (Sample.clause_list [Sample.mapper; Sample.unresolved])
  = Ok (VStr "services").
Proof.
  apply find_table_name_shapes.
  apply resolves_clause with (clause := Sample.mapper)
                             (others := [Sample.unresolved]);
    try reflexivity.
  apply resolves_class with (class_ := Sample.Service); reflexivity.
Defined.

(** ** The model set *)

Lemma filter_filter {A} (p q : A -> bool) (l : list A) :
  filter p (filter q l) = filter (fun x => q x && p x) l.
Proof.
  induction l as [| x tl IH]; simpl.
  - reflexivity.
  - destruct (q x); simpl.
    + destruct (p x); rewrite IH; reflexivity.
    + exact IH.
Qed.

(** The loop of [extract_models], started on any state. *)
Lemma extract_loop (l : list Selection) :
  forall seen result,
    snd (fold_left extract_step l (seen, result))
    = result ++ filter (unseen seen) (first_occurrences l).
Proof.
  induction l as [| s tl IH]; intros seen result; simpl.
  - rewrite app_nil_r. reflexivity.
  - unfold unseen at 1.
    destruct (existsb (Nat.eqb (_model s)) seen) eqn:Eseen; simpl.
    + rewrite IH. f_equal. rewrite filter_filter.
      apply filter_ext_in. intros x _.
      destruct (Nat.eqb (_model x) (_model s)) eqn:Ex; simpl.
      * apply Nat.eqb_eq in Ex. unfold unseen. rewrite Ex, Eseen.
        reflexivity.
      * reflexivity.
    + rewrite IH, <- app_assoc. simpl. do 2 f_equal.
      rewrite filter_filter.
      apply filter_ext_in. intros x _. unfold unseen. simpl.
      rewrite negb_orb. reflexivity.
Qed.

Lemma first_occurrences_models (l : list Selection) (m : ref) :
  In m (map _model (first_occurrences l)) <-> In m (map _model l).
Proof.
  induction l as [| s tl IH]; simpl.
  - reflexivity.
  - split.
    + intros [H | H]; [left; exact H |].
      right. apply IH. apply in_map_iff in H. destruct H as [x [Hx Hin]].
      apply filter_In in Hin. apply in_map_iff. exists x. tauto.
    + intros [H | H]; [left; exact H |].
      destruct (Nat.eq_dec m (_model s)) as [E | E]; [left; auto |].
      right. apply IH in H. apply in_map_iff in H.
      destruct H as [x [Hx Hin]]. apply in_map_iff. exists x.
      split; [exact Hx |]. apply filter_In. split; [exact Hin |].
      apply negb_true_iff, Nat.eqb_neq. congruence.
Qed.

(** Dropping selectables keeps the entities distinct. *)
Lemma distinct_models_filter (keep : Selection -> bool) :
  forall selectables : list Selection,
    NoDup (map _model selectables) ->
    NoDup (map _model (filter keep selectables)).
Proof.
  intros selectables. induction selectables as [| s tl IH]; simpl; intro H.
  - constructor.
  - inversion H as [| m ms Hfresh Hrest]; subst.
    destruct (keep s); simpl.
    + constructor; [| apply IH; exact Hrest].
      intro Hin. apply Hfresh. apply in_map_iff in Hin.
      destruct Hin as [z [Hz Hin]]. apply filter_In in Hin.
      apply in_map_iff. exists z. tauto.
    + apply IH; exact Hrest.
Qed.

Lemma first_occurrences_NoDup (l : list Selection) :
  NoDup (map _model (first_occurrences l)).
Proof.
  induction l as [| s tl IH]; simpl.
  - constructor.
  - constructor.
    + intro Hin. apply in_map_iff in Hin. destruct Hin as [x [Hx Hin]].
      apply filter_In in Hin. destruct Hin as [_ Hne].
      apply negb_true_iff, Nat.eqb_neq in Hne. congruence.
    + apply distinct_models_filter. exact IH.
Qed.

Lemma extract_models_first_occurrences (l : list Selection) :
  extract_models l
  = first_occurrences (filter (fun x => negb (_is_function x)) l).
Proof.
  unfold extract_models. rewrite extract_loop. simpl.
  apply forallb_filter_id. apply forallb_forall. intros x _. reflexivity.
Qed.

(** C8: the model set is the list of the selectables that are not functions,
    each entity kept at its first occurrence and in that order: no entity
    occurs twice in it, and an entity occurs in it exactly when a selectable
    that is not a function refers to it.  For [A, A, B] it is [A, B]. *)
Theorem extract_models_distinct :
  forall l : list Selection,
    extract_models l
    = first_occurrences (filter (fun x => negb (_is_function x)) l) /\
    NoDup (map _model (extract_models l)) /\
    (forall m,
        In m (map _model (extract_models l)) <->
        exists s, In s l /\ _is_function s = false /\ _model s = m) /\
    Forall (fun s => _is_function s = false) (extract_models l) /\
    map _model
      (extract_models
         [Sample.service_host; Sample.service_all; Sample.node_all])
    = [0; 1].
Proof.
  intro l. rewrite extract_models_first_occurrences.
  split; [reflexivity |]. split; [apply first_occurrences_NoDup |].
  split; [| split; [| reflexivity]].
  - intro m. rewrite first_occurrences_models, in_map_iff. split.
    + intros [s [Hm Hin]]. apply filter_In in Hin. destruct Hin as [Hin Hf].
      exists s. apply negb_true_iff in Hf. tauto.
    + intros [s [Hin [Hf Hm]]]. exists s. split; [exact Hm |].
      apply filter_In. split; [exact Hin |]. rewrite Hf. reflexivity.
  - apply Forall_forall. intros s Hin.
    assert (Hsub : forall l' x, In x (first_occurrences l') -> In x l').
    { induction l' as [| y tl IH]; simpl; intros x Hx.
      - exact Hx.
      - destruct Hx as [Hx | Hx]; [left; exact Hx |].
        right. apply IH. apply filter_In in Hx. tauto. }
    apply Hsub in Hin. apply filter_In in Hin. destruct Hin as [_ Hf].
    apply negb_true_iff in Hf. exact Hf.
Qed.

(** ** Hints *)

Lemma str_eq_name (text : string) (v : pyval) :
  str_eq text v = true <-> as_name v = Some text.
Proof.
  unfold str_eq. destruct (as_name v) as [s |].
  - rewrite String.eqb_eq. split; intro H; [subst; reflexivity |].
    injection H as H. symmetry. exact H.
  - split; discriminate.
Qed.


Lemma hint_selected_list (tablename : pyval) (secondary : list pyval)
  (x : Hint) :
  hint_selected tablename (VList secondary) x
  = Ok (acceptedb tablename secondary x).
Proof.
  unfold hint_selected, acceptedb.
  destruct (str_eq (table_name x) tablename); simpl; [| reflexivity].
  destruct (String.eqb (attribute x) "id"); reflexivity.
Qed.

Lemma get_attribute_missing (obj : pyval) (key : string) (default : pyval) :
  has_attribute obj key = false -> get_attribute obj key default = default.
Proof.
  destruct obj; simpl; unfold py_hasattr, py_getattr_default;
    try (destruct (attr key _); [discriminate | reflexivity]).
  destruct (lookup key entries); [discriminate | reflexivity].
Qed.

Lemma load_objects_list (heap : ref -> pyval)
  (get_objects : pyval -> pyval -> list (string * pyval) -> pyval)
  (request_uuid : pyval) (hints : list Hint) (selectable : Selection)
  (tablename : pyval) (secondary : list pyval) :
  find_table_name (heap (_model selectable)) = Ok tablename ->
  get_attribute (heap (_model selectable)) "_secondary_indexes" (VList [])
  = VList secondary ->
  load_objects heap get_objects request_uuid hints selectable
  = Ok (get_objects tablename request_uuid
          (reduce_hints (filter (acceptedb tablename secondary) hints))).
Proof.
  intros Hname Hindexes.
  unfold load_objects, model_of. rewrite Hname. simpl. rewrite Hindexes.
  rewrite (filter_res_ext _ (fun x => Ok (acceptedb tablename secondary x)))
    by (intros x _; apply hint_selected_list).
  rewrite filter_res_total. reflexivity.
Qed.



(** The sample request keeps the hints on [id] and on the declared index
    [host], and drops the one on [topic] and the one of the other table. *)
Example reduced_hints_of_sample :
  reduce_hints (filter (acceptedb (VStr "services") [VStr "host"]) Sample.hints)
  = [("id", VInt 1); ("host", VStr "host1")].
Proof. reflexivity. Qed.

(** ** Fields of the join result *)

Lemma add_field_keeps (heap : ref -> pyval) (py_str : pyval -> string)
  (models : list Selection) (selectable : Selection) (columns : list string)
  (field : pyval) :
  add_field heap py_str models selectable columns field = Ok columns.
Proof. reflexivity. Qed.

Lemma add_fields_keeps (heap : ref -> pyval) (py_str : pyval -> string)
  (models : list Selection) (selectable : Selection) (fields : list pyval) :
  forall columns,
    add_fields heap py_str models selectable columns fields = Ok columns.
Proof.
  induction fields as [| field tl IH]; intro columns; simpl.
  - reflexivity.
  - change (add_field heap py_str models selectable columns field)
      with (@Ok (list string) columns).
    simpl. apply IH.
Qed.

(** The field loop never adds a column: [has_attribute] is asked about the
    selection list, a Python list, which has neither [class_] nor
    [_sa_class_manager]. *)
Lemma join_fields_columns (heap : ref -> pyval) (py_str : pyval -> string)
  (models model_set : list Selection) :
  forall labels columns labels' columns',
    join_fields heap py_str models model_set labels columns
    = Ok (labels', columns') ->
    columns' = columns.
Proof.
  induction model_set as [| selectable tl IH];
    intros labels columns labels' columns' H; simpl in H.
  - injection H as _ H. symmetry. exact H.
  - apply bind_ok in H. destruct H as [label [_ H]].
    apply bind_ok in H. destruct H as [attributes [_ H]].
    apply bind_ok in H. destruct H as [fields [_ H]].
    rewrite add_fields_keeps in H. simpl in H.
    apply IH in H. exact H.
Qed.

(** C5 (what the code does): for a ["*"] request on a mapped class with two
    declared attributes, the labels are resolved and the column set stays
    empty. *)
Theorem columns_of_star_request :
  selected_attributes Sample.heap Sample.service_all
  = Ok (VDict [("id", VObject "InstrumentedAttribute" []);
               ("host", VObject "InstrumentedAttribute" [])]) /\
  join_fields Sample.heap Sample.py_str [Sample.service_all]
    (extract_models [Sample.service_all]) [] []
  = Ok ([VStr "services"], []) /\
  join_fields Sample.heap Sample.py_str [Sample.service_host]
    (extract_models [Sample.service_host]) [] []
  = Ok ([VStr "services"], []).
Proof.
  repeat split.
Qed.

(** ** Materialising rows *)

Section Materialise.

Variable heap : ref -> pyval.
Variables criterions_t order_by_t : Type.
Variable uuid1 : pyval.
Variable get_objects : pyval -> pyval -> list (string * pyval) -> pyval.
Variable join_building_tuples :
  list pyval -> list pyval -> criterions_t -> list Hint -> order_by_t ->
  list (list pyval).
Variable py_str : pyval -> string.

(** The first loop returns, with one label per entity, each of them the
    name of its entity. *)
Lemma join_fields_returns (models model_set : list Selection) :
  Forall (loadable heap) model_set ->
  forall labels columns,
  exists keys,
    join_fields heap py_str models model_set labels columns
    = Ok (labels ++ keys, columns) /\
    Forall2 (fun s key => find_table_name (heap (_model s)) = Ok key)
      model_set keys /\
    Forall (fun key => exists name, as_name key = Some name) keys.
Proof.
  induction 1 as [| s tl [[key [name [Hkey Hname]]] [[fields Hfields] _]] _ IH];
    intros labels columns.
  - exists []. simpl. rewrite app_nil_r. repeat constructor.
  - destruct (IH (labels ++ [key]) columns) as [keys [Hrun [Hall Hnames]]].
    exists (key :: keys). split; [| split].
    + simpl. unfold model_of. rewrite Hkey. simpl.
      apply bind_ok in Hfields.
      destruct Hfields as [attributes [Hattributes Hiter]].
      rewrite Hattributes. simpl. rewrite Hiter. simpl.
      rewrite add_fields_keeps. simpl.
      rewrite Hrun, <- app_assoc. reflexivity.
    + constructor; assumption.
    + constructor; [exists name; exact Hname | exact Hnames].
Qed.

Lemma load_objects_returns (request_uuid : pyval) (hints : list Hint)
  (selectable : Selection) :
  loadable heap selectable ->
  exists objects,
    load_objects heap get_objects request_uuid hints selectable = Ok objects.
Proof.
  intros [[key [name [Hkey _]]] [_ [indexes Hindexes]]].
  eexists. apply (load_objects_list _ _ _ _ _ key indexes); assumption.
Qed.

Lemma labels_fetched (row : pyval) (labels : list pyval) :
  Forall (fun key => exists name, as_name key = Some name) labels ->
  exists product,
    for_each (fun label => get_attribute_v row label VNone) labels
    = Ok product.
Proof.
  intro Hnames. apply for_each_returns. intros label Hin.
  rewrite Forall_forall in Hnames. destruct (Hnames label Hin) as [name Hname].
  unfold get_attribute_v. rewrite Hname. eexists. reflexivity.
Qed.

Lemma extract_sub_row_returns (row : pyval) (model_set : list Selection)
  (labels : list pyval) :
  model_set <> [] ->
  Forall2 (fun s key => find_table_name (heap (_model s)) = Ok key)
    model_set labels ->
  Forall (fun key => exists name, as_name key = Some name) labels ->
  exists sub_row, extract_sub_row heap row model_set labels = Ok sub_row.
Proof.
  intros Hsome Hkeys Hnames. unfold extract_sub_row.
  destruct (1 <? List.length model_set)%nat.
  - destruct (labels_fetched row labels Hnames) as [product Hproduct].
    rewrite Hproduct. simpl. eexists. reflexivity.
  - destruct Hkeys as [| first key tl keys Hkey _]; [contradiction |].
    unfold model_of. rewrite Hkey. simpl.
    inversion Hnames as [| k ks [name Hname] _]; subst.
    unfold get_attribute_v. rewrite Hname. eexists. reflexivity.
Qed.

(** A request with at least one entity, all of them loadable, gets its
    rows: nothing raises before the projection. *)
Lemma materialize_rows_returns (models : list Selection)
  (criterions : criterions_t) (hints : list Hint) (request_uuid : pyval)
  (order_by : order_by_t) :
  extract_models models <> [] ->
  Forall (loadable heap) (extract_models models) ->
  exists rows,
    materialize_rows heap criterions_t order_by_t uuid1 get_objects
      join_building_tuples py_str models criterions hints request_uuid
      order_by
    = Ok rows.
Proof.
  intros Hsome Hloadable. unfold materialize_rows.
  destruct (join_fields_returns models (extract_models models) Hloadable [] [])
    as [keys [Hfields [Hkeys Hnames]]].
  rewrite Hfields. simpl.
  destruct (for_each_returns
              (load_objects heap get_objects (request_id uuid1 request_uuid)
                 hints)
              (extract_models models)) as [list_results Hresults].
  { intros s Hin. apply load_objects_returns.
    rewrite Forall_forall in Hloadable. apply Hloadable. exact Hin. }
  rewrite Hresults. simpl. unfold filter_tuples.
  apply for_each_returns. intros product _.
  apply extract_sub_row_returns; assumption.
Qed.

End Materialise.

(** ** Selecting attributes *)

Lemma any_selectable_is_function_spec (models : list Selection) :
  any_selectable_is_function models = true <->
  exists s, In s models /\ is_hidden s = false /\ _is_function s = true.
Proof.
  unfold any_selectable_is_function. rewrite existsb_exists. split.
  - intros [s [Hin Hfun]]. apply filter_In in Hin. destruct Hin as [Hin Hvis].
    exists s. apply negb_true_iff in Hvis. tauto.
  - intros [s [Hin [Hvis Hfun]]]. exists s. split; [| exact Hfun].
    apply filter_In. split; [exact Hin |]. rewrite Hvis. reflexivity.
Qed.

Section Select.

Variable heap : ref -> pyval.
Variables criterions_t order_by_t : Type.
Variable uuid1 : pyval.
Variable get_objects : pyval -> pyval -> list (string * pyval) -> pyval.
Variable join_building_tuples :
  list pyval -> list pyval -> criterions_t -> list Hint -> order_by_t ->
  list (list pyval).
Variable desimplify : pyval -> pyval -> pyval.
Variable is_novabase : pyval -> bool.
Variable py_str : pyval -> string.

Let materialize :=
  materialize_rows heap criterions_t order_by_t uuid1 get_objects
    join_building_tuples py_str.
Let construct :=
  construct_rows heap criterions_t order_by_t uuid1 get_objects
    join_building_tuples desimplify is_novabase py_str.
Let wrap := wrap_entry desimplify.

Lemma function_row_synthesized (models : list Selection)
  (rows : list pyval) :
  function_row (showable_selection models) rows = synthesized_row models rows.
Proof.
  unfold function_row, showable_selection.
  induction models as [| selection others IH]; [reflexivity |].
  cbn [filter synthesized_row].
  destruct (_is_function selection) eqn:Hfun.
  - rewrite orb_true_r. cbn [map]. rewrite Hfun, IH. reflexivity.
  - rewrite orb_false_r. destruct (is_hidden selection); cbn [negb].
    + exact IH.
    + cbn [map]. rewrite Hfun, IH. reflexivity.
Qed.

Lemma showable_selection_spec (models : list Selection) (s : Selection) :
  In s (showable_selection models) <->
  In s models /\ (is_hidden s = false \/ _is_function s = true).
Proof.
  unfold showable_selection. rewrite filter_In, orb_true_iff, negb_true_iff.
  reflexivity.
Qed.

Lemma synthesized_row_length (models : list Selection) (rows : list pyval) :
  List.length (synthesized_row models rows)
  + List.length (filter hidden_column models)
  = List.length models.
Proof.
  induction models as [| selection others IH]; [reflexivity |].
  cbn [synthesized_row filter]. unfold hidden_column at 1.
  destruct (_is_function selection); [rewrite andb_false_r; simpl; lia |].
  destruct (is_hidden selection); simpl; lia.
Qed.

(** C1: when a selectable that is not hidden is a function, and the rows
    of the request are materialised, [construct_rows] returns one row.  Read
    along the selection list, this row holds the decoded result of every
    function on the whole row set (also of a hidden function, which the
    visible selection keeps), decoded [None] for every column that is not
    hidden, and no entry for a hidden column; every entry is decoded with
    the decoder of the request id.  The visible selection is made of the
    selectables that are not hidden and of the functions, and nothing
    else. *)
Theorem function_branch_single_row :
  forall (models : list Selection) (criterions : criterions_t)
         (hints : list Hint) (request_uuid : pyval) (order_by : order_by_t)
         (rows : list pyval),
  (exists s, In s models /\ is_hidden s = false /\ _is_function s = true) ->
    materialize models criterions hints request_uuid order_by = Ok rows ->
    exists final_row,
      construct models criterions hints request_uuid order_by
      = Ok [VList final_row] /\
      final_row
      = map (desimplify (request_id uuid1 request_uuid))
          (synthesized_row models rows) /\
      final_row
      = map (fun selection =>
               desimplify (request_id uuid1 request_uuid)
                 (if _is_function selection
                  then _function selection rows
                  else VNone))
            (filter (fun x => negb (is_hidden x) || _is_function x) models) /\
      (forall s,
          In s (showable_selection models) <->
          In s models /\ (is_hidden s = false \/ _is_function s = true)) /\
      List.length final_row + List.length (filter hidden_column models)
      = List.length models.
Proof.
  intros models criterions hints request_uuid order_by rows Hany Hrows.
  apply any_selectable_is_function_spec in Hany.
  exists (map (desimplify (request_id uuid1 request_uuid))
            (synthesized_row models rows)).
  split; [| split; [reflexivity | split; [| split]]].
  - unfold construct, construct_rows. fold materialize. rewrite Hrows.
    simpl. unfold select_attributes. rewrite Hany.
    rewrite function_row_synthesized. reflexivity.
  - rewrite <- function_row_synthesized.
    unfold function_row, showable_selection. apply map_map.
  - apply showable_selection_spec.
  - rewrite length_map. apply synthesized_row_length.
Qed.

(** *** The projected list of a row *)

Lemma project_selection_column (rows : list pyval) (row : pyval)
  (selection : Selection) (key : pyval) (label : string) :
  _is_function selection = false ->
  find_table_name (heap (_model selection)) = Ok key ->
  as_name key = Some label ->
  project_selection heap is_novabase rows row selection
  = Ok (column_entries is_novabase row label (_attributes selection)).
Proof.
  intros Hfun Hkey Hlabel.
  unfold project_selection, model_of, column_entries, sub_value, projected.
  rewrite Hfun, Hkey. simpl.
  unfold has_attribute_v, get_attribute_v. rewrite Hlabel.
  destruct (is_novabase row); simpl.
  - destruct (is_none row); simpl; [reflexivity |].
    destruct (String.eqb (_attributes selection) "*"); reflexivity.
  - destruct (has_attribute row label); simpl.
    + destruct (is_none (get_attribute row label VNone)); simpl;
        [reflexivity |].
      destruct (String.eqb (_attributes selection) "*"); reflexivity.
    + destruct (is_none row); simpl; [reflexivity |].
      destruct (String.eqb (_attributes selection) "*"); reflexivity.
Qed.

Lemma project_row_entries (label_of : Selection -> string)
  (showable : list Selection) (rows : list pyval) (row : pyval) :
  labelled heap label_of showable ->
  project_row heap is_novabase showable rows row
  = Ok (projected_list is_novabase label_of showable rows row).
Proof.
  intro Hlabels. unfold project_row, projected_list.
  rewrite (for_each_ext _
             (fun s => Ok (entries_of is_novabase label_of rows row s))).
  - rewrite for_each_total. simpl. rewrite flat_map_concat_map.
    reflexivity.
  - intros s Hin. unfold entries_of.
    destruct (_is_function s) eqn:Hfun.
    + unfold project_selection. rewrite Hfun. reflexivity.
    + destruct (Hlabels s Hin Hfun) as [key [Hkey Hname]].
      apply (project_selection_column rows row s key); assumption.
Qed.

Lemma entries_of_length (label_of : Selection -> string)
  (rows : list pyval) (row : pyval) (selection : Selection) :
  List.length (entries_of is_novabase label_of rows row selection) <= 1.
Proof.
  unfold entries_of, column_entries.
  destruct (_is_function selection); simpl; [lia |].
  destruct (is_none (sub_value is_novabase row (label_of selection)));
    simpl; lia.
Qed.

Lemma is_none_spec (v : pyval) : is_none v = true <-> v = VNone.
Proof.
  destruct v; simpl; split; intro H; try discriminate; reflexivity.
Qed.

(** C2 (as the code has it): on a row, a column of the visible selection
    whose entity resolves to a label adds nothing to the projected list
    when its sub-value is [None], and otherwise one entry: the sub-value
    for a ["*"] request, the requested attribute of the sub-value for any
    other.  The sub-value is what the row holds under the label when the
    row is a composite with that label, and the row itself otherwise.  The
    projected list is made of these entries in the order of the selection,
    so that it has one entry per column when no sub-value is [None]. *)
Theorem projected_list_of_row :
  forall (label_of : Selection -> string) (showable : list Selection)
         (rows : list pyval) (row : pyval),
    labelled heap label_of showable ->
    project_row heap is_novabase showable rows row
    = Ok (flat_map (entries_of is_novabase label_of rows row) showable) /\
    (forall selection,
        _is_function selection = false ->
        let sub := sub_value is_novabase row (label_of selection) in
        let entries := entries_of is_novabase label_of rows row selection in
        (sub = VNone -> entries = []) /\
        (sub <> VNone -> _attributes selection = "*" -> entries = [sub]) /\
        (sub <> VNone -> _attributes selection <> "*" ->
         entries = [get_attribute sub (_attributes selection) VNone])) /\
    (forall label,
        (is_novabase row = false -> has_attribute row label = true ->
         sub_value is_novabase row label = get_attribute row label VNone) /\
        (is_novabase row = true \/ has_attribute row label = false ->
         sub_value is_novabase row label = row)) /\
    ((forall selection,
         In selection showable ->
         _is_function selection = false /\
         sub_value is_novabase row (label_of selection) <> VNone) ->
     project_row heap is_novabase showable rows row
     = Ok (map (fun selection =>
                  projected
                    (sub_value is_novabase row (label_of selection))
                    (_attributes selection))
               showable)).
Proof.
  intros label_of showable rows row Hlabels.
  pose proof (project_row_entries label_of showable rows row Hlabels)
    as Hrow.
  unfold projected_list in Hrow.
  split; [exact Hrow |]. split; [| split].
  - intros selection Hfun sub entries. unfold entries, entries_of.
    rewrite Hfun. unfold column_entries. fold sub. unfold projected.
    repeat split.
    + intros ->. reflexivity.
    + intros Hsub Hstar. rewrite Hstar.
      destruct (is_none sub) eqn:E;
        [apply is_none_spec in E; contradiction | reflexivity].
    + intros Hsub Hstar.
      destruct (is_none sub) eqn:E;
        [apply is_none_spec in E; contradiction |].
      destruct (String.eqb (_attributes selection) "*") eqn:E';
        [apply String.eqb_eq in E'; contradiction | reflexivity].
  - intro label. unfold sub_value. split.
    + intros -> ->. reflexivity.
    + intros [-> | ->]; [reflexivity |].
      rewrite andb_false_r. reflexivity.
  - intro Hall. rewrite Hrow. f_equal.
    clear Hrow Hlabels.
    induction showable as [| s tl IH]; simpl.
    + reflexivity.
    + destruct (Hall s (or_introl eq_refl)) as [Hfun Hsub].
      rewrite IH by (intros x Hx; apply Hall; right; exact Hx).
      unfold entries_of at 1. rewrite Hfun. unfold column_entries.
      destruct (is_none (sub_value is_novabase row (label_of s))) eqn:E;
        [apply is_none_spec in E; contradiction | reflexivity].
Qed.

(** *** The two shapes of the final sequence *)

Lemma emit_row_labelled (label_of : Selection -> string)
  (showable : list Selection) (request_uuid : pyval) (rows : list pyval)
  (row : pyval) :
  labelled heap label_of showable ->
  emit_row heap desimplify is_novabase showable request_uuid rows row
  = Ok (let final_row :=
          map (wrap request_uuid)
            (projected_list is_novabase label_of showable rows row) in
        if (List.length showable =? 1)%nat then final_row
        else [VList final_row]).
Proof.
  intro Hlabels. unfold emit_row.
  rewrite (project_row_entries label_of showable rows row Hlabels).
  simpl.
  destruct (List.length showable =? 1)%nat; reflexivity.
Qed.

Lemma select_attributes_rows (label_of : Selection -> string)
  (models : list Selection) (request_uuid : pyval) (rows : list pyval) :
  any_selectable_is_function models = false ->
  labelled heap label_of (showable_selection models) ->
  select_attributes heap desimplify is_novabase models request_uuid rows
  = Ok (flat_map
          (fun row =>
             let final_row :=
               map (wrap request_uuid)
                 (projected_list is_novabase label_of
                    (showable_selection models) rows row) in
             if (List.length (showable_selection models) =? 1)%nat
             then final_row else [VList final_row])
          rows).
Proof.
  intros Hany Hlabels. unfold select_attributes. rewrite Hany.
  rewrite (for_each_ext _ _ rows
             (fun row _ =>
                emit_row_labelled label_of (showable_selection models)
                  request_uuid rows row Hlabels)).
  rewrite for_each_total. simpl. rewrite flat_map_concat_map.
  reflexivity.
Qed.

(** C4 (as the code has it): in the branch without a visible function,
    when the entities of the visible columns resolve to labels, the final
    sequence is returned, and it is flat exactly when the visible selection
    has one column.  With one column every row adds its wrapped entry to
    the sequence itself: one scalar, or nothing when the sub-value of the
    row is [None].  With any other number of columns every row adds one
    list, the list of its wrapped entries. *)
Theorem single_column_is_flattened :
  forall (label_of : Selection -> string) (models : list Selection)
         (request_uuid : pyval) (rows : list pyval),
    any_selectable_is_function models = false ->
    labelled heap label_of (showable_selection models) ->
    let showable := showable_selection models in
    let final_rows :=
      select_attributes heap desimplify is_novabase models request_uuid
        rows in
    (forall selection,
        showable = [selection] ->
        final_rows
        = Ok (flat_map
                (fun row =>
                   map (wrap request_uuid)
                     (entries_of is_novabase label_of rows row selection))
                rows) /\
        forall row,
          List.length (entries_of is_novabase label_of rows row selection)
          <= 1) /\
    (List.length showable <> 1 ->
     final_rows
     = Ok (map (fun row =>
                  VList (map (wrap request_uuid)
                           (projected_list is_novabase label_of showable
                              rows row)))
               rows)).
Proof.
  intros label_of models request_uuid rows Hany Hlabels showable final_rows.
  unfold final_rows.
  rewrite (select_attributes_rows label_of models request_uuid rows Hany
             Hlabels).
  fold showable. split.
  - intros selection Hone. split; [| intro row; apply entries_of_length].
    rewrite Hone. simpl. f_equal. apply flat_map_ext. intro row.
    unfold projected_list. simpl. rewrite app_nil_r. reflexivity.
  - intro Hmany. apply Nat.eqb_neq in Hmany. rewrite Hmany.
    reflexivity.
Qed.

(** *** Hidden functions *)

Lemma hidden_functions_not_tested (models : list Selection) :
  (forall s, In s models -> _is_function s = true -> is_hidden s = true) ->
  any_selectable_is_function models = false.
Proof.
  intro Hhidden. unfold any_selectable_is_function.
  destruct (existsb _is_function
              (filter (fun y => negb (is_hidden y)) models)) eqn:E;
    [| reflexivity].
  apply existsb_exists in E. destruct E as [s [Hin Hfun]].
  apply filter_In in Hin. destruct Hin as [Hin Hvisible].
  rewrite (Hhidden s Hin Hfun) in Hvisible. discriminate Hvisible.
Qed.

Lemma function_is_showable (models : list Selection) (s : Selection) :
  In s models -> _is_function s = true -> In s (showable_selection models).
Proof.
  intros Hin Hfun. unfold showable_selection. apply filter_In.
  split; [exact Hin |]. rewrite Hfun. apply orb_true_r.
Qed.

(** C9: when every function selectable of the request is hidden, the test
    of the branch, which looks at the selectables that are not hidden,
    fails, so [construct_rows] projects row by row; the hidden functions
    are still part of the visible selection, and for every row the
    function is applied to the whole row set and its result is an entry of
    the projected list of that row, wrapped like the other entries in what
    the row adds to the final sequence. *)
Theorem hidden_function_in_every_row :
  forall (label_of : Selection -> string) (models : list Selection)
         (criterions : criterions_t) (hints : list Hint)
         (request_uuid : pyval) (order_by : order_by_t) (rows : list pyval),
    (forall s, In s models -> _is_function s = true -> is_hidden s = true) ->
    labelled heap label_of (showable_selection models) ->
    materialize models criterions hints request_uuid order_by = Ok rows ->
    let showable := showable_selection models in
    let rid := request_id uuid1 request_uuid in
    let final_row row :=
      map (wrap rid) (projected_list is_novabase label_of showable rows row)
    in
    any_selectable_is_function models = false /\
    (forall s, In s models -> _is_function s = true -> In s showable) /\
    construct models criterions hints request_uuid order_by
    = Ok (flat_map
            (fun row =>
               if (List.length showable =? 1)%nat then final_row row
               else [VList (final_row row)])
            rows) /\
    (forall s row,
        In s models -> _is_function s = true ->
        project_row heap is_novabase showable rows row
        = Ok (projected_list is_novabase label_of showable rows row) /\
        In (_function s rows)
           (projected_list is_novabase label_of showable rows row) /\
        In (wrap rid (_function s rows)) (final_row row)).
Proof.
  intros label_of models criterions hints request_uuid order_by rows
         Hhidden Hlabels Hrows showable rid final_row.
  pose proof (hidden_functions_not_tested models Hhidden) as Hany.
  split; [exact Hany |].
  split; [intros s; apply function_is_showable |]. split.
  - unfold construct, construct_rows. fold materialize. rewrite Hrows.
    simpl. fold rid.
    rewrite (select_attributes_rows label_of models rid rows Hany Hlabels).
    reflexivity.
  - intros s row Hin Hfun.
    assert (Hentry : In (_function s rows)
                        (projected_list is_novabase label_of showable rows
                           row)).
    { unfold projected_list. apply in_flat_map. exists s.
      split; [apply function_is_showable; assumption |].
      unfold entries_of. rewrite Hfun. left. reflexivity. }
    split; [apply project_row_entries; exact Hlabels |].
    split; [exact Hentry |].
    unfold final_row. apply in_map. exact Hentry.
Qed.

End Select.

(** ** The sample request, run *)

Lemma labelled_sample :
  labelled Sample.heap Sample.label_of [Sample.service_host; Sample.node_all].
Proof.
  intros selection Hin _.
  destruct Hin as [<- | [<- | []]]; eexists; split; reflexivity.
Qed.

(** The entities of the sample request can be loaded. *)
Lemma loadable_sample :
  Forall (loadable Sample.heap)
    (extract_models [Sample.service_host; Sample.node_all]).
Proof.
  repeat constructor; simpl;
    try (do 2 eexists; split; reflexivity); eexists; reflexivity.
Qed.

Lemma labelled_single :
  labelled Sample.heap Sample.label_of [Sample.service_host].
Proof.
  intros selection Hin _.
  destruct Hin as [<- | []]; eexists; split; reflexivity.
Qed.

Lemma function_branch_single_row_witness :
  Sample.run [Sample.count false; Sample.service_host;
              Sample.column 1 "*" true; Sample.count true]
  = Ok [VList [Sample.desimplify Sample.request (VInt 2);
               Sample.desimplify Sample.request VNone;
               Sample.desimplify Sample.request (VInt 2)]].
Proof.
  destruct (function_branch_single_row Sample.heap unit unit (VStr "fresh")
              Sample.get_objects Sample.building_tuples Sample.desimplify
              Sample.is_novabase Sample.py_str
              [Sample.count false; Sample.service_host;
               Sample.column 1 "*" true; Sample.count true]
              tt Sample.hints Sample.request tt
              [Sample.joined (Sample.service 1 "host1") (Sample.node 7 1);
               Sample.joined (Sample.service 2 "host2") (Sample.node 7 1)]
              (ex_intro _ (Sample.count false)
                 (conj (or_introl eq_refl) (conj eq_refl eq_refl)))
              eq_refl)
    as [final_row [Hrun [-> _]]].
  exact Hrun.
Defined.

(** A row of a join whose [services] slot is [None], and a row that is
    [None]: the column of [services] adds no entry, so the projected list is
    shorter than the selection. *)
Lemma projected_list_omits_none :
  project_row Sample.heap Sample.is_novabase
    [Sample.service_all; Sample.node_all] []
    (Sample.joined VNone (Sample.node 7 1))
  = Ok [Sample.node 7 1] /\
  project_row Sample.heap Sample.is_novabase [Sample.service_all] [] VNone
  = Ok [] /\
  ~ (forall row final_row,
        project_row Sample.heap Sample.is_novabase
          [Sample.service_all; Sample.node_all] [] row = Ok final_row ->
        List.length final_row = 2).
Proof.
  split; [reflexivity |]. split; [reflexivity |].
  intro H.
  specialize (H (Sample.joined VNone (Sample.node 7 1)) [Sample.node 7 1]
                eq_refl).
  discriminate H.
Qed.

Lemma projected_list_of_row_witness :
  project_row Sample.heap Sample.is_novabase
    [Sample.service_host; Sample.node_all] []
    (Sample.joined (Sample.service 1 "host1") (Sample.node 7 1))
  = Ok [VStr "host1"; Sample.node 7 1].
Proof.
  destruct (projected_list_of_row Sample.heap Sample.is_novabase
              Sample.label_of [Sample.service_host; Sample.node_all] []
              (Sample.joined (Sample.service 1 "host1") (Sample.node 7 1))
              labelled_sample)
    as [Hrow _].
  exact Hrow.
Defined.

(** One visible column and two rows, the second without a [services]
    object: the final sequence has one scalar, the second row adds nothing. *)
Lemma single_column_row_adds_nothing :
  showable_selection [Sample.service_host; Sample.column 1 "*" true]
  = [Sample.service_host] /\
  select_attributes Sample.heap Sample.desimplify Sample.is_novabase
    [Sample.service_host; Sample.column 1 "*" true] Sample.request
    [Sample.joined (Sample.service 1 "host1") (Sample.node 7 1);
     Sample.joined VNone (Sample.node 7 1)]
  = Ok [VStr "host1"] /\
  select_attributes Sample.heap Sample.desimplify Sample.is_novabase
    [Sample.service_host] Sample.request [Sample.service 1 "host1"; VNone]
  = Ok [VStr "host1"].
Proof.
  repeat split.
Qed.

Lemma single_column_is_flattened_witness :
  select_attributes Sample.heap Sample.desimplify Sample.is_novabase
    [Sample.service_host] Sample.request
    [Sample.service 1 "host1"; Sample.service 2 "host2"]
  = Ok [VStr "host1"; VStr "host2"].
Proof.
  destruct (single_column_is_flattened Sample.heap Sample.desimplify
              Sample.is_novabase Sample.label_of [Sample.service_host]
              Sample.request
              [Sample.service 1 "host1"; Sample.service 2 "host2"]
              eq_refl labelled_single)
    as [Hone _].
  destruct (Hone Sample.service_host eq_refl) as [Hflat _].
  exact Hflat.
Defined.

(** With two visible columns every row adds one list. *)
Example two_columns_are_lists :
  Sample.run [Sample.service_host; Sample.node_all]
  = Ok [VList [VStr "host1"; VLazy (Sample.node 7 1) Sample.request];
        VList [VStr "host2"; VLazy (Sample.node 7 1) Sample.request]].
Proof. reflexivity. Qed.

Lemma hidden_function_in_every_row_witness :
  Sample.run [Sample.count true; Sample.service_host]
  = Ok [VList [VInt 2; VStr "host1"]; VList [VInt 2; VStr "host2"]].
Proof.
  destruct (hidden_function_in_every_row Sample.heap unit unit (VStr "fresh")
              Sample.get_objects Sample.building_tuples Sample.desimplify
              Sample.is_novabase Sample.py_str Sample.label_of
              [Sample.count true; Sample.service_host] tt Sample.hints
              Sample.request tt
              [Sample.service 1 "host1"; Sample.service 2 "host2"])
    as [_ [_ [Hrun _]]].
  - intros s [<- | [<- | []]]; [reflexivity | discriminate].
  - intros selection Hin Hfun.
    destruct Hin as [<- | [<- | []]]; [discriminate Hfun |].
    eexists; split; reflexivity.
  - reflexivity.
  - exact Hrun.
Defined.

(** * Further properties of the module *)

(** ** Induction on the values an object holds *)

Lemma pyval_induction (P : pyval -> Prop) :
  (forall v, (forall sub, direct_sub sub v -> P sub) -> P v) ->
  forall v, P v.
Proof.
  intro step. fix IH 1. intro v. apply step.
  destruct v; simpl; intros sub Hsub; try contradiction.
  - induction items as [| x tl IHl]; [contradiction |].
    destruct Hsub as [<- | Hsub]; [apply IH | apply IHl; exact Hsub].
  - induction entries as [| [k x] tl IHl]; [contradiction |].
    destruct Hsub as [<- | Hsub]; [apply IH | apply IHl; exact Hsub].
  - induction attrs as [| [k x] tl IHl]; [contradiction |].
    destruct Hsub as [<- | Hsub]; [apply IH | apply IHl; exact Hsub].
  - destruct Hsub as [Hsub | Hsub].
    + induction vals as [| x tl IHl]; [contradiction |].
      destruct Hsub as [<- | Hsub]; [apply IH | apply IHl; exact Hsub].
    + induction labels as [| x tl IHl]; [contradiction |].
      destruct Hsub as [<- | Hsub]; [apply IH | apply IHl; exact Hsub].
  - destruct Hsub as [-> | ->]; apply IH.
Qed.

(** ** Attribute helpers *)

(** X1: [get_attribute] falls back on the default exactly for a key that
    [has_attribute] does not find; for a key it finds, the default plays no
    part in the answer. *)
Theorem get_attribute_default_only_when_missing :
  forall (obj : pyval) (key : string),
    (has_attribute obj key = false ->
     forall default, get_attribute obj key default = default) /\
    (has_attribute obj key = true ->
     forall default other,
       get_attribute obj key default = get_attribute obj key other).
Proof.
  intros obj key. split.
  - intros Hmissing default. apply get_attribute_missing. exact Hmissing.
  - intros Hfound default other.
    destruct obj; simpl in *;
      unfold py_hasattr, py_getattr_default in *;
      try (destruct (attr key _); [reflexivity | discriminate]).
    destruct (lookup key entries); [reflexivity | discriminate].
Qed.

(** X2: [all_selectables_are_functions] holds of a request without a visible
    selectable, where [any_selectable_is_function] fails; as soon as one
    selectable is visible, the first implies the second. *)
Theorem all_and_any_selectables :
  forall models : list Selection,
    ((forall s, In s models -> is_hidden s = true) ->
     all_selectables_are_functions models = true /\
     any_selectable_is_function models = false) /\
    ((exists s, In s models /\ is_hidden s = false) ->
     all_selectables_are_functions models = true ->
     any_selectable_is_function models = true).
Proof.
  intro models.
  unfold all_selectables_are_functions, any_selectable_is_function.
  split.
  - intro Hhidden.
    assert (Hnone : filter (fun y => negb (is_hidden y)) models = []).
    { induction models as [| s tl IH]; simpl; [reflexivity |].
      rewrite (Hhidden s (or_introl eq_refl)). simpl.
      apply IH. intros x Hx. apply Hhidden. right. exact Hx. }
    rewrite Hnone. split; reflexivity.
  - intros [s [Hin Hvisible]] Hall.
    rewrite forallb_forall in Hall. apply existsb_exists.
    assert (Hs : In s (filter (fun y => negb (is_hidden y)) models)).
    { apply filter_In. split; [exact Hin |]. rewrite Hvisible. reflexivity. }
    exists s. split; [exact Hs | apply Hall; exact Hs].
Qed.

Lemma all_and_any_selectables_witness :
  all_selectables_are_functions [Sample.count true; Sample.column 0 "*" true]
  = true /\
  any_selectable_is_function [Sample.count true; Sample.column 0 "*" true]
  = false.
Proof.
  apply (all_and_any_selectables
           [Sample.count true; Sample.column 0 "*" true]).
  intros s [<- | [<- | []]]; reflexivity.
Defined.

(** ** [flatten] *)

(** The loop of [flatten], one item at a time. *)
Lemma flatten_cons (first : pyval) (others : list pyval) :
  flatten (first :: others)
  = (match first with
     | VList lis => flatten lis
     | _ => [first]
     end) ++ flatten others.
Proof. destruct first; reflexivity. Qed.

Lemma flatten_app (lis1 lis2 : list pyval) :
  flatten (lis1 ++ lis2) = flatten lis1 ++ flatten lis2.
Proof. unfold flatten. apply flat_map_app. Qed.

Lemma flatten_item_flat :
  forall v, Forall (fun x => is_list x = false) (flatten_item v).
Proof.
  apply (pyval_induction
           (fun v => Forall (fun x => is_list x = false) (flatten_item v))).
  intros v IH. destruct v; simpl; try (repeat constructor).
  simpl in IH. induction items as [| x tl IHl]; simpl.
  - constructor.
  - apply Forall_app. split.
    + apply IH. left. reflexivity.
    + apply IHl. intros sub Hsub. apply IH. right. exact Hsub.
Qed.

Lemma flatten_of_flat (lis : list pyval) :
  Forall (fun x => is_list x = false) lis -> flatten lis = lis.
Proof.
  induction 1 as [| x tl Hx _ IH]; [reflexivity |].
  rewrite flatten_cons, IH. destruct x; try reflexivity. discriminate Hx.
Qed.

(** X3: whatever the nesting of [lis], no item of [flatten lis] is a list;
    a [lis] without a list among its items is returned as it is, so that
    flattening twice is flattening once. *)
Theorem flatten_is_flat :
  forall lis : list pyval,
    Forall (fun x => is_list x = false) (flatten lis) /\
    (Forall (fun x => is_list x = false) lis -> flatten lis = lis) /\
    flatten (flatten lis) = flatten lis.
Proof.
  intro lis.
  assert (Hflat : Forall (fun x => is_list x = false) (flatten lis)).
  { unfold flatten. induction lis as [| x tl IH]; simpl.
    - constructor.
    - apply Forall_app. split; [apply flatten_item_flat | exact IH]. }
  split; [exact Hflat |]. split; [apply flatten_of_flat |].
  apply flatten_of_flat. exact Hflat.
Qed.

(** The leaves of a value: the values that are not lists, through any depth
    of lists, from left to right. *)
Lemma flatten_single_list (lis : list pyval) :
  flatten [VList lis] = flatten lis.
Proof. rewrite flatten_cons. simpl. apply app_nil_r. Qed.

(** X4: [flatten] works through its argument from left to right: the result
    for a concatenation is the concatenation of the results, a nested list
    stands for its items, and tuples and dicts are items like any other and
    are kept whole. *)
Theorem flatten_in_order :
  forall (lis1 lis2 inner : list pyval),
    flatten (lis1 ++ lis2) = flatten lis1 ++ flatten lis2 /\
    flatten (lis1 ++ VList inner :: lis2) = flatten (lis1 ++ inner ++ lis2) /\
    (forall vals labels,
        flatten (lis1 ++ VKeyedTuple vals labels :: lis2)
        = flatten lis1 ++ VKeyedTuple vals labels :: flatten lis2) /\
    (forall entries,
        flatten (lis1 ++ VDict entries :: lis2)
        = flatten lis1 ++ VDict entries :: flatten lis2).
Proof.
  intros lis1 lis2 inner. split; [apply flatten_app |].
  split; [| split]; intros; rewrite !flatten_app, ?flatten_cons;
    try reflexivity.
Qed.

(** ** [intersect] *)

Section IntersectFacts.

Variable py_eq : pyval -> pyval -> bool.

(** X5: [intersect b1 b2] is [b1] without the items that have no equal in
    [b2]: the items kept are in the order and the number they have in [b1]
    (the result for a concatenation is the concatenation of the results),
    nothing is kept from an empty [b2], and intersecting the result with
    [b2] again changes nothing. *)
Theorem intersect_keeps_first_list :
  forall b1 b2 : list pyval,
    (forall v,
        In v (intersect py_eq b1 b2) <->
        In v b1 /\ exists x, In x b2 /\ py_eq v x = true) /\
    (forall more,
        intersect py_eq (b1 ++ more) b2
        = intersect py_eq b1 b2 ++ intersect py_eq more b2) /\
    intersect py_eq b1 [] = [] /\
    intersect py_eq (intersect py_eq b1 b2) b2 = intersect py_eq b1 b2 /\
    List.length (intersect py_eq b1 b2) <= List.length b1.
Proof.
  intros b1 b2. unfold intersect.
  split; [| split; [| split; [| split]]].
  - intro v. rewrite filter_In, existsb_exists. reflexivity.
  - intro more. apply filter_app.
  - induction b1 as [| v tl IH]; [reflexivity | exact IH].
  - induction b1 as [| v tl IH]; simpl; [reflexivity |].
    destruct (existsb (py_eq v) b2) eqn:E; simpl.
    + rewrite E, IH. reflexivity.
    + exact IH.
  - apply filter_length_le.
Qed.

End IntersectFacts.

(** ** Table data *)

Lemma prefix_dot (c : ascii) (s : string) :
  prefix "." (String c s) = Ascii.eqb "." c.
Proof.
  cbn [prefix]. destruct (ascii_dec "." c) as [<- | Hne].
  - rewrite Ascii.eqb_refl. destruct s; reflexivity.
  - symmetry. apply Ascii.eqb_neq. exact Hne.
Qed.

Lemma str_contains_dot (s : string) :
  str_contains "." s = true <-> In "."%char (list_ascii_of_string s).
Proof.
  unfold str_contains. induction s as [| c s IH].
  - simpl. split; [discriminate | contradiction].
  - change (index 0 "." (String c s))
      with (if prefix "." (String c s) then Some 0
            else match index 0 "." s with
                 | Some n => Some (S n)
                 | None => None
                 end).
    rewrite prefix_dot. cbn [list_ascii_of_string In].
    destruct (Ascii.eqb "." c) eqn:E.
    + apply Ascii.eqb_eq in E. split; [intros _; left; auto | reflexivity].
    + apply Ascii.eqb_neq in E.
      destruct (index 0 "." s).
      * split; [intros _; right; apply IH; reflexivity | reflexivity].
      * split; [discriminate |].
        intros [H | H]; [congruence | apply IH in H; discriminate H].
Qed.

Lemma split_not_empty (sep : ascii) (s : string) : split sep s <> [].
Proof.
  destruct s as [| c s]; simpl; [discriminate |].
  destruct (Ascii.eqb c sep); [discriminate |].
  destruct (split sep s); discriminate.
Qed.

Lemma split_without_separator (sep : ascii) (s : string) :
  ~ In sep (list_ascii_of_string s) -> split sep s = [s].
Proof.
  induction s as [| c s IH]; simpl; intro H; [reflexivity |].
  destruct (Ascii.eqb c sep) eqn:E.
  - apply Ascii.eqb_eq in E. contradiction H. left. exact E.
  - rewrite IH by (intro Hin; apply H; right; exact Hin). reflexivity.
Qed.

Lemma split_at_separator (sep : ascii) (head tail : string) :
  ~ In sep (list_ascii_of_string head) ->
  split sep (head ++ String sep tail)%string = head :: split sep tail.
Proof.
  induction head as [| c head IH]; simpl; intro H.
  - rewrite Ascii.eqb_refl. reflexivity.
  - destruct (Ascii.eqb c sep) eqn:E.
    + apply Ascii.eqb_eq in E. contradiction H. left. exact E.
    + rewrite IH by (intro Hin; apply H; right; exact Hin). reflexivity.
Qed.

Lemma split_with_separator (sep : ascii) (s : string) :
  In sep (list_ascii_of_string s) ->
  exists first second others, split sep s = first :: second :: others.
Proof.
  induction s as [| c s IH]; simpl; intro H; [contradiction |].
  destruct (Ascii.eqb c sep) eqn:E.
  - destruct (split sep s) as [| second others] eqn:Es.
    + contradiction (split_not_empty sep s Es).
    + exists EmptyString, second, others. reflexivity.
  - apply Ascii.eqb_neq in E. destruct H as [H | H]; [contradiction |].
    destruct (IH H) as [first [second [others Hs]]]. rewrite Hs.
    exists (String c first), second, others. reflexivity.
Qed.

Lemma separator_in_append (sep : ascii) (head tail : string) :
  In sep (list_ascii_of_string (head ++ String sep tail)%string).
Proof.
  induction head as [| c head IH]; cbn [append list_ascii_of_string In].
  - left. reflexivity.
  - right. exact IH.
Qed.

Lemma append_empty (s : string) : (s ++ EmptyString)%string = s.
Proof.
  induction s as [| c s IH]; cbn [append]; [| rewrite IH]; reflexivity.
Qed.

Section CriteriaFacts.

Variable py_str : pyval -> string.

Lemma extract_table_data_cases (term : pyval) :
  (In "."%char (list_ascii_of_string (py_str term)) /\
   exists table column,
     extract_table_data py_str term
     = Ok (VDict [("table", VStr table); ("column", VStr column)])) \/
  (dot_free (py_str term) /\ extract_table_data py_str term = Ok VNone).
Proof.
  unfold extract_table_data, dot_free.
  destruct (str_contains "." (py_str term)) eqn:E.
  - left. apply str_contains_dot in E. split; [exact E |].
    destruct (split_with_separator _ _ E) as [first [second [others Hs]]].
    rewrite Hs. exists first, second. reflexivity.
  - right. split; [| reflexivity]. intro Hin.
    apply str_contains_dot in Hin. rewrite Hin in E. discriminate E.
Qed.

Lemma extract_table_data_data (term : pyval) :
  exists data, extract_table_data py_str term = Ok data /\ table_data data.
Proof.
  destruct (extract_table_data_cases term)
    as [[_ [table [column H]]] | [_ H]]; rewrite H; eexists;
    (split; [reflexivity |]).
  - right. exists table, column. reflexivity.
  - left. reflexivity.
Qed.

(** X6: [extract_table_data] never raises: the test for a dot guarantees the
    two parts it indexes.  It answers [None] exactly when the text of the
    term holds no dot, and otherwise a [dict] with a table and a column. *)
Theorem extract_table_data_returns :
  forall term : pyval,
  exists data,
    extract_table_data py_str term = Ok data /\
    table_data data /\
    (data = VNone <-> dot_free (py_str term)).
Proof.
  intro term.
  destruct (extract_table_data_cases term)
    as [[Hdot [table [column H]]] | [Hfree H]]; rewrite H; eexists;
    (split; [reflexivity |]).
  - split; [right; exists table, column; reflexivity |].
    split; [discriminate | intro Hfree; contradiction].
  - split; [left; reflexivity |]. split; [intros _; exact Hfree | reflexivity].
Qed.

Lemma extract_table_data_at_first_dot (term : pyval) (table tail : string) :
  dot_free table ->
  py_str term = (table ++ String "." tail)%string ->
  exists column others,
    split "." tail = column :: others /\
    extract_table_data py_str term
    = Ok (VDict [("table", VStr table); ("column", VStr column)]).
Proof.
  intros Htable Htext. unfold extract_table_data. rewrite Htext.
  assert (Hdot : str_contains "." (table ++ String "." tail)%string = true)
    by (apply str_contains_dot; apply separator_in_append).
  rewrite Hdot, (split_at_separator "." table _ Htable).
  destruct (split "." tail) as [| column others] eqn:Hsplit.
  - contradiction (split_not_empty "." tail Hsplit).
  - exists column, others. split; reflexivity.
Qed.

(** X7: when the text of the term is [table.column], possibly followed by a
    dot and more, with no dot inside [table] nor inside [column], the data
    extracted are this table and this column; the text after a second dot is
    dropped. *)
Theorem extract_table_data_of_dotted_name :
  forall (term : pyval) (table column rest : string),
    dot_free table -> dot_free column ->
    rest = EmptyString \/ (exists more, rest = String "." more) ->
    py_str term = (table ++ String "." (column ++ rest))%string ->
    extract_table_data py_str term
    = Ok (VDict [("table", VStr table); ("column", VStr column)]).
Proof.
  intros term table column rest Htable Hcolumn Hrest Htext.
  destruct (extract_table_data_at_first_dot term table (column ++ rest)
              Htable Htext) as [found [others [Hsplit Hdata]]].
  rewrite Hdata. do 4 f_equal.
  destruct Hrest as [-> | [more ->]].
  - rewrite append_empty, (split_without_separator "." column Hcolumn)
      in Hsplit.
    injection Hsplit as <- _. reflexivity.
  - rewrite (split_at_separator "." column more Hcolumn) in Hsplit.
    injection Hsplit as <- _. reflexivity.
Qed.

(** The body of [extract_joining_criterion], one call deep. *)
Lemma extract_joining_criterion_unfold (exp : pyval) :
  extract_joining_criterion py_str exp =
  if instance_of exp "BooleanExpression" then
    exps <- py_getattr exp "exps" ;;
    map_exps (extract_joining_criterion py_str) exps
  else if instance_of exp "BinaryExpression" then
    left <- py_getattr exp "left" ;;
    left_data <- extract_table_data py_str left ;;
    right <- py_getattr exp "right" ;;
    right_data <- extract_table_data py_str right ;;
    Ok (VList [VList [left_data; right_data]])
  else Ok (VList []).
Proof.
  assert (Hexps :
            match attr_with (map_exps (extract_joining_criterion py_str))
                    "exps" exp with
            | Some r => r
            | None => Raise AttributeError
            end
            = (exps <- py_getattr exp "exps" ;;
               map_exps (extract_joining_criterion py_str) exps)).
  { rewrite attr_with_map. unfold py_getattr.
    destruct (attr "exps" exp); reflexivity. }
  destruct exp; try reflexivity.
  cbn [extract_joining_criterion].
  destruct (instance_of (VObject cls attrs) "BooleanExpression");
    [exact Hexps | reflexivity].
Qed.

Lemma traverse_results {A B} (f : A -> res B) (l : list A) :
  forall ys, traverse f l = Ok ys -> Forall2 (fun x y => f x = Ok y) l ys.
Proof.
  induction l as [| x tl IH]; intros ys H; simpl in H.
  - injection H as <-. constructor.
  - apply bind_ok in H. destruct H as [y [Hy H]].
    apply bind_ok in H. destruct H as [ys' [Hys H]].
    injection H as <-. constructor; [exact Hy | apply IH; exact Hys].
Qed.

Lemma lookup_in (key : string) (entries : list (string * pyval)) (v : pyval) :
  lookup key entries = Some v -> In v (map snd entries).
Proof.
  unfold lookup. induction entries as [| [k x] tl IH]; simpl; intro H.
  - discriminate H.
  - destruct (String.eqb key k).
    + injection H as ->. left. reflexivity.
    + right. apply IH. exact H.
Qed.

Lemma keyed_lookup_in (key : string) (vals labels : list pyval) (v : pyval) :
  keyed_lookup_with (fun x => x) key vals labels = Some v -> In v vals.
Proof.
  revert labels. induction vals as [| x tl IH]; intros labels H; simpl in H.
  - discriminate H.
  - destruct labels as [| lbl labels']; [discriminate H |].
    destruct (keyed_lookup_with (fun x0 => x0) key tl labels') eqn:E.
    + injection H as ->. right. apply (IH labels'). exact E.
    + destruct (str_eq key lbl); [| discriminate H].
      injection H as ->. left. reflexivity.
Qed.

Lemma attr_direct_sub (key : string) (obj v : pyval) :
  attr key obj = Some v -> direct_sub v obj.
Proof.
  unfold attr. destruct obj; simpl; intro H; try discriminate H.
  - apply (lookup_in key). exact H.
  - left. apply (keyed_lookup_in key vals labels). exact H.
Qed.

Lemma paired_items (items results : list pyval) :
  Forall2 (fun _ y => paired y) items results ->
  paired (VList results).
Proof.
  intro H. exists results. split; [reflexivity |].
  induction H as [| x y xs ys [content [-> [Hdata Heven]]] _ [IHdata IHeven]].
  - split; [constructor | reflexivity].
  - rewrite flatten_cons. split.
    + apply Forall_app. split; assumption.
    + rewrite length_app, Nat.even_add, Heven, IHeven. reflexivity.
Qed.

Lemma paired_empty {A} (l : list A) :
  paired (VList (map (fun _ => VList []) l)).
Proof.
  exists (map (fun _ => VList []) l). split; [reflexivity |].
  assert (H : flatten (map (fun _ : A => VList []) l) = []).
  { induction l as [| x tl IH]; [reflexivity |].
    cbn [map]. rewrite flatten_cons. exact IH. }
  rewrite H. split; [constructor | reflexivity].
Qed.

Lemma table_data_not_list (v : pyval) : table_data v -> is_list v = false.
Proof.
  intros [-> | [table [column ->]]]; reflexivity.
Qed.

(** X8: whatever the nesting of boolean expressions in [exp], the lists
    [extract_joining_criterion] returns flatten to table data (a [dict] with
    a table and a column, or [None]) and to an even number of them: the two
    sides of every binary expression stay together. *)
Theorem criteria_flatten_to_pairs :
  forall exp r : pyval,
    extract_joining_criterion py_str exp = Ok r ->
    exists content,
      r = VList content /\
      Forall table_data (flatten content) /\
      Nat.even (List.length (flatten content)) = true.
Proof.
  intro exp.
  enough (H : (forall r, extract_joining_criterion py_str exp = Ok r ->
                         paired r) /\
              (forall sub, direct_sub sub exp ->
                           forall r, extract_joining_criterion py_str sub
                                     = Ok r -> paired r))
    by (exact (proj1 H)).
  induction exp as [exp IH] using pyval_induction.
  split; [| intros sub Hsub; exact (proj1 (IH sub Hsub))].
  intros r H. rewrite extract_joining_criterion_unfold in H.
  destruct (instance_of exp "BooleanExpression").
  - apply bind_ok in H. destruct H as [exps [Hexps H]].
    unfold py_getattr in Hexps.
    destruct (attr "exps" exp) as [x |] eqn:Hattr; [| discriminate Hexps].
    injection Hexps as ->. apply attr_direct_sub in Hattr.
    destruct (IH exps Hattr) as [_ IHitems].
    destruct exps; simpl in H; try discriminate H.
    + injection H as <-. apply paired_empty.
    + injection H as <-. apply paired_empty.
    + apply bind_ok in H. destruct H as [results [Hresults H]].
      injection H as <-. apply paired_items with (items := items).
      apply traverse_results in Hresults.
      simpl in IHitems. clear IH Hattr.
      induction Hresults as [| x y xs ys Hxy _ IHl]; constructor.
      * apply (IHitems x (or_introl eq_refl)). exact Hxy.
      * apply IHl. intros sub Hsub. apply IHitems. right. exact Hsub.
    + injection H as <-. apply paired_empty.
    + apply bind_ok in H. destruct H as [results [Hresults H]].
      injection H as <-. apply paired_items with (items := vals).
      apply traverse_results in Hresults.
      simpl in IHitems. clear IH Hattr.
      induction Hresults as [| x y xs ys Hxy _ IHl]; constructor.
      * apply (IHitems x (or_introl (or_introl eq_refl))). exact Hxy.
      * apply IHl. intros sub [Hsub | Hsub]; apply IHitems.
        -- left. right. exact Hsub.
        -- right. exact Hsub.
  - destruct (instance_of exp "BinaryExpression").
    + apply bind_ok in H. destruct H as [left [_ H]].
      destruct (extract_table_data_data left)
        as [left_data [Hleft Hleft_data]].
      rewrite Hleft in H. simpl in H.
      apply bind_ok in H. destruct H as [right [_ H]].
      destruct (extract_table_data_data right)
        as [right_data [Hright Hright_data]].
      rewrite Hright in H. simpl in H. injection H as <-.
      exists [VList [left_data; right_data]]. split; [reflexivity |].
      rewrite flatten_single_list.
      rewrite (flatten_of_flat [left_data; right_data]).
      * split; [| reflexivity].
        constructor; [assumption | constructor; [assumption | constructor]].
      * constructor; [apply table_data_not_list; assumption |].
        constructor; [apply table_data_not_list; assumption | constructor].
    + injection H as <-. exists []. split; [reflexivity |].
      split; [constructor | reflexivity].
Qed.

Lemma instance_of_one_class (exp : pyval) (name other : string) :
  instance_of exp name = true -> name <> other ->
  instance_of exp other = false.
Proof.
  unfold instance_of. intros Hname Hother.
  apply String.eqb_eq in Hname. apply String.eqb_neq. congruence.
Qed.

(** X9: the two extractors agree on a join.  For a relationship from
    [local.fk] to [remote.field] and a binary expression whose sides read
    [local.fk] and [remote.field] (names without a dot), the pair of table
    data built from the relationship is the one entry of the criterion
    extracted from the expression. *)
Theorem relationship_agrees_with_expression :
  forall (rel exp left right : pyval) (local fk remote field : string),
    dot_free local -> dot_free fk -> dot_free remote -> dot_free field ->
    attr "local_fk_field" rel = Some (VStr fk) ->
    attr "remote_object_tablename" rel = Some (VStr remote) ->
    attr "remote_object_field" rel = Some (VStr field) ->
    instance_of exp "BinaryExpression" = true ->
    attr "left" exp = Some left ->
    attr "right" exp = Some right ->
    py_str left = (local ++ String "." fk)%string ->
    py_str right = (remote ++ String "." field)%string ->
    exists pair,
      extract_joining_criterion_from_relationship rel (VStr local)
      = Ok (VList pair) /\
      extract_joining_criterion py_str exp = Ok (VList [VList pair]).
Proof.
  intros rel exp left right local fk remote field
         Hlocal Hfk Hremote Hfield Hrel_fk Hrel_table Hrel_field
         Hbinary Hleft Hright Hleft_text Hright_text.
  eexists. split.
  - unfold extract_joining_criterion_from_relationship, py_getattr.
    rewrite Hrel_fk, Hrel_table, Hrel_field. reflexivity.
  - rewrite extract_joining_criterion_unfold, Hbinary.
    rewrite (instance_of_one_class exp "BinaryExpression" "BooleanExpression"
               Hbinary) by discriminate.
    unfold py_getattr. rewrite Hleft, Hright. simpl.
    destruct (extract_table_data_at_first_dot left local fk Hlocal Hleft_text)
      as [column [others [Hsplit ->]]].
    rewrite (split_without_separator "." fk Hfk) in Hsplit.
    injection Hsplit as <- _. simpl.
    destruct (extract_table_data_at_first_dot right remote field Hremote
                Hright_text) as [column' [others' [Hsplit ->]]].
    rewrite (split_without_separator "." field Hfield) in Hsplit.
    injection Hsplit as <- _. reflexivity.
Qed.

End CriteriaFacts.

(** ** Loading and filtering *)

Lemma for_each_results {A B} (f : A -> res B) (l : list A) :
  forall ys, for_each f l = Ok ys -> Forall2 (fun x y => f x = Ok y) l ys.
Proof.
  induction l as [| x tl IH]; intros ys H; simpl in H.
  - injection H as <-. constructor.
  - apply bind_ok in H. destruct H as [y [Hy H]].
    apply bind_ok in H. destruct H as [ys' [Hys H]].
    injection H as <-. constructor; [exact Hy | apply IH; exact Hys].
Qed.

Lemma filter_res_kept {A} (p : A -> res bool) (l : list A) :
  forall ys, filter_res p l = Ok ys ->
             forall y, In y ys -> In y l /\ p y = Ok true.
Proof.
  induction l as [| x tl IH]; intros ys H y Hy; simpl in H.
  - injection H as <-. contradiction Hy.
  - apply bind_ok in H. destruct H as [b [Hb H]].
    apply bind_ok in H. destruct H as [ys' [Hys H]].
    injection H as <-. destruct b.
    + destruct Hy as [<- | Hy].
      * split; [left; reflexivity | exact Hb].
      * destruct (IH ys' Hys y Hy) as [Hin Hp]. split; [right |]; assumption.
    + destruct (IH ys' Hys y Hy) as [Hin Hp]. split; [right |]; assumption.
Qed.


Section PipelineFacts.

Variable heap : ref -> pyval.
Variables criterions_t order_by_t : Type.
Variable uuid1 : pyval.
Variable get_objects : pyval -> pyval -> list (string * pyval) -> pyval.
Variable join_building_tuples :
  list pyval -> list pyval -> criterions_t -> list Hint -> order_by_t ->
  list (list pyval).
Variable desimplify : pyval -> pyval -> pyval.
Variable is_novabase : pyval -> bool.
Variable py_str : pyval -> string.

Let named_after (s : Selection) (key : pyval) : Prop :=
  find_table_name (heap (_model s)) = Ok key.

Lemma join_fields_labels (models model_set : list Selection) :
  forall labels0 columns0 labels columns,
    join_fields heap py_str models model_set labels0 columns0
    = Ok (labels, columns) ->
    exists keys,
      labels = labels0 ++ keys /\ Forall2 named_after model_set keys.
Proof.
  induction model_set as [| s tl IH];
    intros labels0 columns0 labels columns H; simpl in H.
  - injection H as <- _. exists []. rewrite app_nil_r.
    split; [reflexivity | constructor].
  - apply bind_ok in H. destruct H as [label [Hlabel H]].
    apply bind_ok in H. destruct H as [attributes [_ H]].
    apply bind_ok in H. destruct H as [fields [_ H]].
    apply bind_ok in H. destruct H as [columns' [_ H]].
    destruct (IH _ _ _ _ H) as [keys [-> Hkeys]].
    exists (label :: keys). rewrite <- app_assoc.
    split; [reflexivity | constructor; assumption].
Qed.

Lemma load_objects_inversion (request_uuid : pyval) (hints : list Hint)
  (selectable : Selection) (objects : pyval) :
  load_objects heap get_objects request_uuid hints selectable = Ok objects ->
  exists tablename selected,
    named_after selectable tablename /\
    objects = get_objects tablename request_uuid (reduce_hints selected) /\
    forall x, In x selected ->
              In x hints /\ str_eq (table_name x) tablename = true.
Proof.
  unfold load_objects, model_of. intro H.
  apply bind_ok in H. destruct H as [tablename [Hname H]].
  apply bind_ok in H. destruct H as [selected [Hselected H]].
  injection H as <-. exists tablename, selected.
  split; [exact Hname |]. split; [reflexivity |].
  intros x Hx. destruct (filter_res_kept _ _ _ Hselected x Hx) as [Hin Hp].
  split; [exact Hin |]. unfold hint_selected in Hp.
  destruct (str_eq (table_name x) tablename); [reflexivity | discriminate Hp].
Qed.

(** X10: when the two loops over the model set return, there is one label
    and one collection per entity, in the order of the model set: the label
    is the table name of the entity, and the collection is what the store
    returned for this label and the request id on hints that all bear this
    table. *)
Theorem collections_follow_labels :
  forall (models model_set : list Selection) (hints : list Hint)
         (request_uuid : pyval) (labels : list pyval) (columns : list string)
         (list_results : list pyval),
    join_fields heap py_str models model_set [] [] = Ok (labels, columns) ->
    for_each (load_objects heap get_objects request_uuid hints) model_set
    = Ok list_results ->
    Forall2 (fun s key => find_table_name (heap (_model s)) = Ok key)
      model_set labels /\
    Forall2
      (fun key objects =>
         exists selected,
           objects = get_objects key request_uuid (reduce_hints selected) /\
           forall x, In x selected ->
                     In x hints /\ str_eq (table_name x) key = true)
      labels list_results /\
    List.length labels = List.length model_set /\
    List.length list_results = List.length model_set.
Proof.
  intros models model_set hints request_uuid labels columns list_results
         Hfields Hload.
  destruct (join_fields_labels _ _ _ _ _ _ Hfields) as [keys [-> Hkeys]].
  simpl. apply for_each_results in Hload.
  split; [exact Hkeys |]. split; [| split].
  - clear Hfields. revert list_results Hload.
    induction Hkeys as [| s key tl keys Hkey _ IH];
      intros list_results Hload; inversion Hload as [| ? objects ? rest Hs Hrest];
      subst; constructor.
    + destruct (load_objects_inversion _ _ _ _ Hs)
        as [tablename [selected [Hname [-> Hselected]]]].
      unfold named_after in Hname, Hkey. rewrite Hkey in Hname.
      injection Hname as <-. exists selected. split; [reflexivity | assumption].
    + apply IH. exact Hrest.
  - symmetry. exact (Forall2_length Hkeys).
  - symmetry. exact (Forall2_length Hload).
Qed.


End PipelineFacts.

(** ** Rows *)

Lemma keyed_lookup_first_slot {A} (f : pyval -> A) (name : string)
  (slot key : pyval) (others : list pyval) :
  as_name key = Some name ->
  keyed_lookup_with f name (slot :: others) [key] = Some (f slot).
Proof.
  intro Hname. pose proof (proj2 (str_eq_name name key) Hname) as E.
  destruct others as [| other others]; cbn [keyed_lookup_with];
    rewrite E; reflexivity.
Qed.

Lemma keyed_lookup_no_match {A} (f : pyval -> A) (name : string) :
  forall vals labels,
    (forall key, In key labels -> str_eq name key = false) ->
    keyed_lookup_with f name vals labels = None.
Proof.
  induction vals as [| v vals IH]; intros labels Hnone; [reflexivity |].
  destruct labels as [| key labels]; [reflexivity |].
  cbn [keyed_lookup_with]. fold (keyed_lookup_with f name).
  rewrite IH by (intros k Hk; apply Hnone; right; exact Hk).
  rewrite (Hnone key (or_introl eq_refl)). reflexivity.
Qed.

Lemma keyed_lookup_at {A} (f : pyval -> A) (name : string) (v key : pyval)
  (after_v after_l : list pyval) :
  str_eq name key = true ->
  (forall k, In k after_l -> str_eq name k = false) ->
  forall before_v before_l,
    List.length before_v = List.length before_l ->
    keyed_lookup_with f name (before_v ++ v :: after_v)
      (before_l ++ key :: after_l)
    = Some (f v).
Proof.
  intros Hkey Hafter.
  induction before_v as [| x before_v IH]; intros before_l Hlength;
    destruct before_l as [| k before_l]; try discriminate Hlength.
  - cbn [app keyed_lookup_with]. fold (keyed_lookup_with f name).
    rewrite (keyed_lookup_no_match f name after_v after_l Hafter), Hkey.
    reflexivity.
  - cbn [app keyed_lookup_with]. fold (keyed_lookup_with f name).
    rewrite (IH before_l) by (injection Hlength as H; exact H).
    reflexivity.
Qed.

Section RowFacts.

Variable heap : ref -> pyval.

(** X12: with one entity, every row is the object in the first slot of its
    tuple: the tuples without a slot are dropped, the order is kept, and
    there are as many rows as tuples with a slot. *)
Theorem single_entity_rows :
  forall (selectable : Selection) (key : pyval) (name : string)
         (tuples : list (list pyval)),
    find_table_name (heap (_model selectable)) = Ok key ->
    as_name key = Some name ->
    filter_tuples heap [selectable] [key] tuples
    = Ok (map first_slot (filter not_empty tuples)) /\
    List.length (map first_slot (filter not_empty tuples))
    = List.length (filter not_empty tuples).
Proof.
  intros selectable key name tuples Hkey Hname.
  split; [| apply length_map].
  unfold filter_tuples. fold not_empty.
  change (fun product : list pyval => (0 <? List.length product)%nat)
    with not_empty.
  rewrite (for_each_ext _ (fun product => Ok (first_slot product))).
  - apply for_each_total.
  - intros product Hin. apply filter_In in Hin. destruct Hin as [_ Hslot].
    destruct product as [| slot others]; [discriminate Hslot |].
    unfold extract_sub_row, model_of. simpl List.length.
    cbn [Nat.ltb Nat.leb]. rewrite Hkey. simpl.
    unfold get_attribute_v. rewrite Hname.
    unfold get_attribute, py_getattr_default, attr, attr_with.
    rewrite (keyed_lookup_first_slot _ name slot key others Hname).
    reflexivity.
Qed.

Lemma fetch_slots (row : pyval) (labels : list pyval) :
  Forall (fun key => exists name, as_name key = Some name) labels ->
  for_each (fun label => get_attribute_v row label VNone) labels
  = Ok (map (slot_of row) labels).
Proof.
  intro Hnames.
  rewrite (for_each_ext _ (fun label => Ok (slot_of row label))).
  - apply for_each_total.
  - intros label Hin. rewrite Forall_forall in Hnames.
    destruct (Hnames label Hin) as [name Hname].
    unfold get_attribute_v, slot_of. rewrite Hname. reflexivity.
Qed.

Lemma slots_of_distinct_labels :
  forall (todo_l todo_v done_l done_v : list pyval),
    List.length done_v = List.length done_l ->
    List.length todo_v = List.length todo_l ->
    Forall (fun key => exists name, as_name key = Some name) todo_l ->
    NoDup (map as_name (done_l ++ todo_l)) ->
    map (slot_of (VKeyedTuple (done_v ++ todo_v) (done_l ++ todo_l))) todo_l
    = todo_v.
Proof.
  induction todo_l as [| key todo_l IH];
    intros todo_v done_l done_v Hdone Htodo Hnames Hdistinct;
    destruct todo_v as [| v todo_v]; try discriminate Htodo;
    [reflexivity |].
  inversion Hnames as [| ? ? [name Hname] Hrest]; subst.
  cbn [map]. f_equal.
  - unfold slot_of. rewrite Hname.
    unfold get_attribute, py_getattr_default, attr, attr_with.
    rewrite (keyed_lookup_at (fun x => x) name v key todo_v todo_l);
      [reflexivity | apply str_eq_name; exact Hname | | exact Hdone].
    intros k Hk. destruct (str_eq name k) eqn:E; [| reflexivity].
    apply str_eq_name in E. exfalso.
    rewrite map_app in Hdistinct. cbn [map] in Hdistinct.
    apply NoDup_remove_2 in Hdistinct. apply Hdistinct.
    apply in_or_app. right. rewrite Hname, <- E.
    apply in_map. exact Hk.
  - replace (done_v ++ v :: todo_v) with ((done_v ++ [v]) ++ todo_v)
      by (rewrite <- app_assoc; reflexivity).
    replace (done_l ++ key :: todo_l) with ((done_l ++ [key]) ++ todo_l)
      by (rewrite <- app_assoc; reflexivity).
    apply IH.
    + rewrite !length_app. simpl. rewrite Hdone. reflexivity.
    + injection Htodo as H. exact H.
    + exact Hrest.
    + rewrite <- app_assoc. exact Hdistinct.
Qed.

(** X13: with several entities and labels that are names, the row made of a
    tuple is a composite over the same labels with one slot per label,
    whatever the length of the tuple; two labels that are equal get the
    same slot; and when the labels are distinct and the tuple has one slot
    per label, the row is the tuple under its labels, unchanged. *)
Theorem composite_rows :
  forall (vals labels : list pyval) (model_set : list Selection),
    1 < List.length model_set ->
    Forall (fun key => exists name, as_name key = Some name) labels ->
    exists slots,
      extract_sub_row heap (VKeyedTuple vals labels) model_set labels
      = Ok (VKeyedTuple slots labels) /\
      List.length slots = List.length labels /\
      (forall i j key,
          nth_error labels i = Some key -> nth_error labels j = Some key ->
          nth_error slots i = nth_error slots j) /\
      (List.length vals = List.length labels ->
       NoDup (map as_name labels) ->
       slots = vals).
Proof.
  intros vals labels model_set Hseveral Hnames.
  exists (map (slot_of (VKeyedTuple vals labels)) labels).
  split; [| split; [apply length_map | split]].
  - unfold extract_sub_row.
    apply Nat.ltb_lt in Hseveral. rewrite Hseveral.
    rewrite (fetch_slots _ labels Hnames). reflexivity.
  - intros i j key Hi Hj. rewrite !nth_error_map, Hi, Hj. reflexivity.
  - intros Hlength Hdistinct.
    apply (slots_of_distinct_labels labels vals [] []);
      [reflexivity | exact Hlength | exact Hnames | exact Hdistinct].
Qed.

End RowFacts.

(** ** The request as a whole *)

Lemma Forall2_find {A B} (R : A -> B -> Prop) (l : list A) (l' : list B) :
  Forall2 R l l' -> forall x, In x l -> exists y, In y l' /\ R x y.
Proof.
  induction 1 as [| a b tl tl' Hab _ IH]; intros x Hx; [contradiction |].
  destruct Hx as [<- | Hx].
  - exists b. split; [left; reflexivity | exact Hab].
  - destruct (IH x Hx) as [y [Hy Hxy]]. exists y.
    split; [right; exact Hy | exact Hxy].
Qed.

Lemma length_concat_ones {A} (ll : list (list A)) :
  Forall (fun l => List.length l = 1) ll ->
  List.length (List.concat ll) = List.length ll.
Proof.
  induction 1 as [| l tl Hl _ IH]; simpl; [reflexivity |].
  rewrite length_app, Hl, IH. reflexivity.
Qed.

Lemma length_concat_at_most_ones {A} (ll : list (list A)) :
  Forall (fun l => List.length l <= 1) ll ->
  List.length (List.concat ll) <= List.length ll.
Proof.
  induction 1 as [| l tl Hl _ IH]; simpl; [lia |].
  rewrite length_app. lia.
Qed.

Section RequestFacts.

Variable heap : ref -> pyval.
Variables criterions_t order_by_t : Type.
Variable uuid1 : pyval.
Variable get_objects : pyval -> pyval -> list (string * pyval) -> pyval.
Variable join_building_tuples :
  list pyval -> list pyval -> criterions_t -> list Hint -> order_by_t ->
  list (list pyval).
Variable desimplify : pyval -> pyval -> pyval.
Variable is_novabase : pyval -> bool.
Variable py_str : pyval -> string.

Let materialize :=
  materialize_rows heap criterions_t order_by_t uuid1 get_objects
    join_building_tuples py_str.
Let construct :=
  construct_rows heap criterions_t order_by_t uuid1 get_objects
    join_building_tuples desimplify is_novabase py_str.
Let named_after (s : Selection) (key : pyval) : Prop :=
  find_table_name (heap (_model s)) = Ok key.
Let is_name (key : pyval) : Prop := exists name, as_name key = Some name.

(** A row was extracted: every label served as an attribute name. *)
Lemma extracted_row_names (row sub_row : pyval) (model_set : list Selection)
  (labels : list pyval) :
  (exists vals, row = VKeyedTuple vals labels) ->
  Forall2 named_after model_set labels ->
  extract_sub_row heap row model_set labels = Ok sub_row ->
  Forall is_name labels.
Proof.
  intros [vals ->] Hkeys H. unfold extract_sub_row in H.
  destruct (1 <? List.length model_set)%nat eqn:Hseveral.
  - apply bind_ok in H. destruct H as [product [Hproduct _]].
    apply for_each_results in Hproduct.
    clear Hkeys. induction Hproduct as [| label v tl vs Hv _ IH];
      constructor; [| exact IH].
    unfold get_attribute_v in Hv.
    destruct (as_name label) as [name |] eqn:E;
      [exists name; exact E | discriminate Hv].
  - destruct Hkeys as [| first key others keys Hkey Hothers];
      [discriminate H |].
    destruct others; [| discriminate Hseveral].
    inversion Hothers; subst.
    apply bind_ok in H. destruct H as [model_name [Hname H]].
    unfold named_after, model_of in *. rewrite Hkey in Hname.
    injection Hname as <-. constructor; [| constructor].
    unfold get_attribute_v in H.
    destruct (as_name key) as [name |] eqn:E;
      [exists name; exact E | discriminate H].
Qed.

Lemma model_in_model_set (models : list Selection) (s : Selection) :
  In s models -> _is_function s = false ->
  exists s', In s' (extract_models models) /\ _model s' = _model s.
Proof.
  intros Hin Hfun.
  assert (H : In (_model s) (map _model (extract_models models))).
  { rewrite extract_models_first_occurrences.
    apply first_occurrences_models. apply in_map. apply filter_In.
    split; [exact Hin |]. rewrite Hfun. reflexivity. }
  apply in_map_iff in H. destruct H as [s' [Hmodel Hs']].
  exists s'. split; assumption.
Qed.

Lemma showable_labelled (models : list Selection) (labels : list pyval) :
  Forall2 named_after (extract_models models) labels ->
  Forall is_name labels ->
  labelled heap (label_in heap) (showable_selection models).
Proof.
  intros Hkeys Hnames s Hshowable Hfun.
  apply filter_In in Hshowable. destruct Hshowable as [Hin _].
  destruct (model_in_model_set models s Hin Hfun) as [s' [Hs' Hmodel]].
  destruct (Forall2_find _ _ _ Hkeys s' Hs') as [key [Hkey Hnamed]].
  rewrite Forall_forall in Hnames. destruct (Hnames key Hkey) as [name Hname].
  unfold named_after in Hnamed. rewrite Hmodel in Hnamed.
  exists key. split; [exact Hnamed |].
  unfold label_in. rewrite Hnamed, Hname. reflexivity.
Qed.

Lemma materialized_rows_labelled (models : list Selection)
  (criterions : criterions_t) (hints : list Hint) (request_uuid : pyval)
  (order_by : order_by_t) (row : pyval) (rows : list pyval) :
  materialize models criterions hints request_uuid order_by = Ok (row :: rows)
  -> labelled heap (label_in heap) (showable_selection models).
Proof.
  unfold materialize, materialize_rows. intro H.
  apply bind_ok in H. destruct H as [[labels columns] [Hfields H]].
  apply bind_ok in H. destruct H as [list_results [_ H]].
  simpl in H. unfold filter_tuples in H.
  destruct (join_fields_labels heap py_str _ _ _ _ _ _ Hfields)
    as [keys [Hlabels Hkeys]].
  simpl in Hlabels. subst keys.
  apply for_each_results in H.
  inversion H as [| product sub_row products sub_rows Hrow _ Hleft Hright].
  apply (showable_labelled models labels Hkeys).
  apply (extracted_row_names (VKeyedTuple product labels) row
           (extract_models models) labels);
    [exists product; reflexivity | exact Hkeys | exact Hrow].
Qed.

(** X14: once the rows of the request are materialised, the projection
    returns: [construct_rows] raises exactly when the resolution of the
    names, the loading or the extraction of the rows raises, and then with
    the same exception. *)
Theorem projection_never_raises :
  forall (models : list Selection) (criterions : criterions_t)
         (hints : list Hint) (request_uuid : pyval) (order_by : order_by_t),
    (forall rows,
        materialize models criterions hints request_uuid order_by = Ok rows ->
        exists final_rows,
          construct models criterions hints request_uuid order_by
          = Ok final_rows) /\
    (forall e,
        construct models criterions hints request_uuid order_by = Raise e <->
        materialize models criterions hints request_uuid order_by = Raise e).
Proof.
  intros models criterions hints request_uuid order_by.
  assert (Hreturns :
            forall rows,
              materialize models criterions hints request_uuid order_by
              = Ok rows ->
              exists final_rows,
                construct models criterions hints request_uuid order_by
                = Ok final_rows).
  { intros rows Hrows. unfold construct, construct_rows. fold materialize.
    rewrite Hrows. simpl.
    destruct (any_selectable_is_function models) eqn:Hany.
    - unfold select_attributes. rewrite Hany. eexists. reflexivity.
    - destruct rows as [| row rows].
      + unfold select_attributes. rewrite Hany. eexists. reflexivity.
      + rewrite (select_attributes_rows heap desimplify is_novabase
                   (label_in heap) models _ _ Hany
                   (materialized_rows_labelled _ _ _ _ _ _ _ Hrows)).
        eexists. reflexivity. }
  split; [exact Hreturns |].
  intro e. split; intro H.
  - destruct (materialize models criterions hints request_uuid order_by)
      as [rows | e'] eqn:Hrows.
    + destruct (Hreturns rows eq_refl) as [final_rows Hfinal].
      rewrite Hfinal in H. discriminate H.
    + unfold construct, construct_rows in H. fold materialize in H.
      rewrite Hrows in H. exact H.
  - unfold construct, construct_rows. fold materialize. rewrite H.
    reflexivity.
Qed.

Lemma project_selection_length (rows : list pyval) (row : pyval)
  (selection : Selection) (entries : list pyval) :
  project_selection heap is_novabase rows row selection = Ok entries ->
  List.length entries <= 1.
Proof.
  unfold project_selection. destruct (_is_function selection).
  - intro H. injection H as <-. simpl. lia.
  - intro H.
    apply bind_ok in H. destruct H as [key [_ H]].
    apply bind_ok in H. destruct H as [composite [_ H]].
    apply bind_ok in H. destruct H as [value [_ H]].
    destruct (negb (is_none value));
      [destruct (negb (String.eqb (_attributes selection) "*")) |];
      injection H as <-; simpl; lia.
Qed.

Lemma project_row_length (showable : list Selection) (rows : list pyval)
  (row : pyval) (final_row : list pyval) :
  project_row heap is_novabase showable rows row = Ok final_row ->
  List.length final_row <= List.length showable.
Proof.
  unfold project_row. intro H.
  apply bind_ok in H. destruct H as [entries [Hentries H]].
  injection H as <-. apply for_each_results in Hentries.
  induction Hentries as [| s es tl ess Hs _ IH]; simpl; [lia |].
  rewrite length_app. apply project_selection_length in Hs. lia.
Qed.

(** X15: the size of the answer.  A request with a visible function is
    answered by one row, whatever the number of rows materialised; without
    one, the answer has one entry per row when the visible selection does
    not have exactly one column, and at most one entry per row when it has
    exactly one. *)
Theorem size_of_the_answer :
  forall (models : list Selection) (criterions : criterions_t)
         (hints : list Hint) (request_uuid : pyval) (order_by : order_by_t)
         (rows final_rows : list pyval),
    materialize models criterions hints request_uuid order_by = Ok rows ->
    construct models criterions hints request_uuid order_by = Ok final_rows ->
    (any_selectable_is_function models = true ->
     List.length final_rows = 1) /\
    (any_selectable_is_function models = false ->
     List.length (showable_selection models) <> 1 ->
     List.length final_rows = List.length rows) /\
    (any_selectable_is_function models = false ->
     List.length (showable_selection models) = 1 ->
     List.length final_rows <= List.length rows).
Proof.
  intros models criterions hints request_uuid order_by rows final_rows
         Hrows Hfinal.
  unfold construct, construct_rows in Hfinal. fold materialize in Hfinal.
  rewrite Hrows in Hfinal. simpl in Hfinal. unfold select_attributes in Hfinal.
  split; [| split]; intro Hany; rewrite Hany in Hfinal.
  - injection Hfinal as <-. reflexivity.
  - intro Hmany. apply Nat.eqb_neq in Hmany.
    apply bind_ok in Hfinal. destruct Hfinal as [contributions [Hall Hfinal]].
    injection Hfinal as <-. apply for_each_results in Hall.
    rewrite (Forall2_length Hall). apply length_concat_ones.
    induction Hall as [| row c tl cs Hc _ IH]; constructor; [| exact IH].
    unfold emit_row in Hc. apply bind_ok in Hc.
    destruct Hc as [final_row [_ Hc]]. rewrite Hmany in Hc.
    injection Hc as <-. reflexivity.
  - intro Hone. pose proof Hone as Hone'. apply Nat.eqb_eq in Hone'.
    apply bind_ok in Hfinal. destruct Hfinal as [contributions [Hall Hfinal]].
    injection Hfinal as <-. apply for_each_results in Hall.
    rewrite (Forall2_length Hall). apply length_concat_at_most_ones.
    induction Hall as [| row c tl cs Hc _ IH]; constructor; [| exact IH].
    unfold emit_row in Hc. apply bind_ok in Hc.
    destruct Hc as [final_row [Hrow Hc]]. rewrite Hone' in Hc.
    injection Hc as <-. rewrite length_map.
    apply project_row_length in Hrow. lia.
Qed.

Lemma no_model_without_column (models : list Selection) :
  (forall s, In s models -> _is_function s = true) ->
  extract_models models = [].
Proof.
  intro Hall. unfold extract_models.
  assert (H : filter (fun x => negb (_is_function x)) models = []).
  { induction models as [| s tl IH]; [reflexivity |]. simpl.
    rewrite (Hall s (or_introl eq_refl)). simpl.
    apply IH. intros x Hx. apply Hall. right. exact Hx. }
  rewrite H. reflexivity.
Qed.

Lemma no_entity_no_row (labels : list pyval) (tuples : list (list pyval)) :
  filter_tuples heap [] labels tuples
  = if forallb (fun product => negb (not_empty product)) tuples
    then Ok [] else Raise IndexError.
Proof.
  unfold filter_tuples.
  change (fun product : list pyval => (0 <? List.length product)%nat)
    with not_empty.
  induction tuples as [| product tl IH]; [reflexivity |].
  cbn [filter forallb]. destruct (not_empty product); simpl.
  - reflexivity.
  - exact IH.
Qed.

(** X16: a request made of functions only has no entity: the store is not
    asked, the tuple builder is handed no collection and no label, and a
    tuple with a slot in its answer makes [construct_rows] raise
    [IndexError].  When the builder answers with empty tuples only, the
    row set is empty: the one row of the answer holds the decoded result of
    every function on the empty list. *)
Theorem functions_only_request :
  forall (models : list Selection) (criterions : criterions_t)
         (hints : list Hint) (request_uuid : pyval) (order_by : order_by_t),
    (forall s, In s models -> _is_function s = true) ->
    let tuples := join_building_tuples [] [] criterions hints order_by in
    extract_models models = [] /\
    ((exists product, In product tuples /\ product <> []) ->
     construct models criterions hints request_uuid order_by
     = Raise IndexError) /\
    ((forall product, In product tuples -> product = []) ->
     materialize models criterions hints request_uuid order_by = Ok [] /\
     ((exists s, In s models /\ is_hidden s = false) ->
      construct models criterions hints request_uuid order_by
      = Ok [VList (map (fun s =>
                          desimplify (request_id uuid1 request_uuid)
                            (_function s []))
                       models)])).
Proof.
  intros models criterions hints request_uuid order_by Hall tuples.
  pose proof (no_model_without_column models Hall) as Hnone.
  assert (Hrows : materialize models criterions hints request_uuid order_by
                  = if forallb (fun product => negb (not_empty product)) tuples
                    then Ok [] else Raise IndexError).
  { unfold materialize, materialize_rows. rewrite Hnone. simpl.
    apply no_entity_no_row. }
  split; [exact Hnone |]. split.
  - intros [product [Hin Hslot]].
    unfold construct, construct_rows. fold materialize. rewrite Hrows.
    destruct (forallb (fun p => negb (not_empty p)) tuples) eqn:E;
      [| reflexivity].
    rewrite forallb_forall in E. specialize (E product Hin).
    destruct product; [contradiction | discriminate E].
  - intro Hempty.
    assert (E : forallb (fun p => negb (not_empty p)) tuples = true).
    { apply forallb_forall. intros product Hin.
      rewrite (Hempty product Hin). reflexivity. }
    rewrite E in Hrows. split; [exact Hrows |].
    intros [s [Hin Hvisible]].
    unfold construct, construct_rows. fold materialize. rewrite Hrows.
    simpl. unfold select_attributes.
    rewrite (proj2 (any_selectable_is_function_spec models))
      by (exists s; auto).
    unfold function_row, showable_selection. rewrite map_map.
    do 3 f_equal.
    rewrite forallb_filter_id.
    + apply map_ext_in. intros x Hx. rewrite (Hall x Hx). reflexivity.
    + apply forallb_forall. intros x Hx. rewrite (Hall x Hx).
      apply orb_true_r.
Qed.

End RequestFacts.

(** ** The further properties on the samples *)

Ltac no_dot := unfold dot_free; cbn; intuition discriminate.

Lemma get_attribute_default_only_when_missing_witness :
  get_attribute (Sample.service 1 "host1") "topic" (VStr "none")
  = VStr "none" /\
  get_attribute (Sample.service 1 "host1") "host" (VStr "none")
  = get_attribute (Sample.service 1 "host1") "host" VNone.
Proof.
  destruct (get_attribute_default_only_when_missing
              (Sample.service 1 "host1") "topic") as [Hmissing _].
  destruct (get_attribute_default_only_when_missing
              (Sample.service 1 "host1") "host") as [_ Hfound].
  split; [apply Hmissing | apply Hfound]; reflexivity.
Defined.

Lemma flatten_is_flat_witness :
  flatten [VInt 1; Sample.service 1 "host1"]
  = [VInt 1; Sample.service 1 "host1"].
Proof.
  destruct (flatten_is_flat [VInt 1; Sample.service 1 "host1"])
    as [_ [Hsame _]].
  apply Hsame. repeat constructor.
Defined.

Lemma extract_table_data_of_dotted_name_witness :
  extract_table_data SampleCriteria.py_str
    (SampleCriteria.column_term "services.id.label")
  = Ok (VDict [("table", VStr "services"); ("column", VStr "id")]).
Proof.
  apply (extract_table_data_of_dotted_name SampleCriteria.py_str
           (SampleCriteria.column_term "services.id.label")
           "services" "id" ".label").
  - no_dot.
  - no_dot.
  - right. exists "label". reflexivity.
  - reflexivity.
Defined.

Lemma criteria_flatten_to_pairs_witness :
  exists content,
    VList [VList [VList [VList [VDict [("table", VStr "compute_nodes");
                                       ("column", VStr "service_id")];
                                VDict [("table", VStr "services");
                                       ("column", VStr "id")]]]];
           VList []]
    = VList content /\
    Forall table_data (flatten content) /\
    Nat.even (List.length (flatten content)) = true.
Proof.
  apply (criteria_flatten_to_pairs SampleCriteria.py_str
           (SampleCriteria.boolean
              [SampleCriteria.boolean [SampleCriteria.join_on];
               SampleCriteria.column_term "services.id"])).
  reflexivity.
Defined.

Lemma relationship_agrees_with_expression_witness :
  exists pair,
    extract_joining_criterion_from_relationship SampleCriteria.relationship
      (VStr "compute_nodes")
    = Ok (VList pair) /\
    extract_joining_criterion SampleCriteria.py_str SampleCriteria.join_on
    = Ok (VList [VList pair]).
Proof.
  apply (relationship_agrees_with_expression SampleCriteria.py_str
           SampleCriteria.relationship SampleCriteria.join_on
           (SampleCriteria.column_term "compute_nodes.service_id")
           (SampleCriteria.column_term "services.id")
           "compute_nodes" "service_id" "services" "id");
    try reflexivity; no_dot.
Defined.

Lemma collections_follow_labels_witness :
  Forall2 (fun s key => find_table_name (Sample.heap (_model s)) = Ok key)
    [Sample.service_host; Sample.node_all]
    [VStr "services"; VStr "compute_nodes"].
Proof.
  apply (collections_follow_labels Sample.heap Sample.get_objects
           Sample.py_str [Sample.service_host; Sample.node_all]
           [Sample.service_host; Sample.node_all] Sample.hints Sample.request
           [VStr "services"; VStr "compute_nodes"] []
           [Sample.get_objects (VStr "services") Sample.request
              [("id", VInt 1); ("host", VStr "host1")];
            Sample.get_objects (VStr "compute_nodes") Sample.request
              [("id", VInt 7)]]);
    reflexivity.
Defined.


Lemma single_entity_rows_witness :
  filter_tuples Sample.heap [Sample.service_all] [VStr "services"]
    [[Sample.service 1 "host1"]; []; [Sample.service 2 "host2"]]
  = Ok [Sample.service 1 "host1"; Sample.service 2 "host2"].
Proof.
  apply (single_entity_rows Sample.heap Sample.service_all (VStr "services")
           "services"
           [[Sample.service 1 "host1"]; []; [Sample.service 2 "host2"]]);
    reflexivity.
Defined.

Lemma composite_rows_witness :
  exists slots,
    extract_sub_row Sample.heap
      (Sample.joined (Sample.service 1 "host1") (Sample.node 7 1))
      [Sample.service_all; Sample.node_all]
      [VStr "services"; VStr "compute_nodes"]
    = Ok (VKeyedTuple slots [VStr "services"; VStr "compute_nodes"]) /\
    slots = [Sample.service 1 "host1"; Sample.node 7 1].
Proof.
  destruct (composite_rows Sample.heap
              [Sample.service 1 "host1"; Sample.node 7 1]
              [VStr "services"; VStr "compute_nodes"]
              [Sample.service_all; Sample.node_all])
    as [slots [Hrow [_ [_ Hsame]]]].
  - simpl. lia.
  - repeat constructor; eexists; reflexivity.
  - exists slots. split; [exact Hrow |]. apply Hsame; [reflexivity |].
    repeat constructor; simpl; intuition discriminate.
Defined.

Lemma projection_never_raises_witness :
  exists final_rows,
    Sample.run [Sample.service_host; Sample.node_all] = Ok final_rows.
Proof.
  destruct (projection_never_raises Sample.heap unit unit (VStr "fresh")
              Sample.get_objects Sample.building_tuples Sample.desimplify
              Sample.is_novabase Sample.py_str
              [Sample.service_host; Sample.node_all] tt Sample.hints
              Sample.request tt) as [Hreturns _].
  apply (Hreturns
           [Sample.joined (Sample.service 1 "host1") (Sample.node 7 1);
            Sample.joined (Sample.service 2 "host2") (Sample.node 7 1)]).
  reflexivity.
Defined.

Lemma size_of_the_answer_witness :
  List.length
    [VList [VStr "host1"; VLazy (Sample.node 7 1) Sample.request];
     VList [VStr "host2"; VLazy (Sample.node 7 1) Sample.request]]
  = 2.
Proof.
  destruct (size_of_the_answer Sample.heap unit unit (VStr "fresh")
              Sample.get_objects Sample.building_tuples Sample.desimplify
              Sample.is_novabase Sample.py_str
              [Sample.service_host; Sample.node_all] tt Sample.hints
              Sample.request tt
              [Sample.joined (Sample.service 1 "host1") (Sample.node 7 1);
               Sample.joined (Sample.service 2 "host2") (Sample.node 7 1)]
              [VList [VStr "host1"; VLazy (Sample.node 7 1) Sample.request];
               VList [VStr "host2"; VLazy (Sample.node 7 1) Sample.request]]
              eq_refl eq_refl) as [_ [Hmany _]].
  apply Hmany; [reflexivity | discriminate].
Defined.

Lemma functions_only_request_witness :
  Sample.run [Sample.count false]
  = Ok [VList [Sample.desimplify Sample.request (VInt 0)]].
Proof.
  destruct (functions_only_request Sample.heap unit unit (VStr "fresh")
              Sample.get_objects Sample.building_tuples Sample.desimplify
              Sample.is_novabase Sample.py_str [Sample.count false] tt
              Sample.hints Sample.request tt) as [_ [_ Hempty]].
  - intros s [<- | []]. reflexivity.
  - destruct Hempty as [_ Hrun]; [intros product [] |].
    apply Hrun. exists (Sample.count false).
    split; [left; reflexivity | reflexivity].
Defined.

(** ** The model set, again *)

Lemma extract_state (l : list Selection) :
  forall seen result,
  exists new,
    fold_left extract_step l (seen, result)
    = (rev (map _model new) ++ seen, result ++ new).
Proof.
  induction l as [| s tl IH]; intros seen result.
  - exists []. simpl. rewrite app_nil_r. reflexivity.
  - simpl. destruct (existsb (Nat.eqb (_model s)) seen).
    + apply IH.
    + destruct (IH (_model s :: seen) (result ++ [s])) as [new Hnew].
      exists (s :: new). rewrite Hnew. simpl.
      rewrite <- !app_assoc. reflexivity.
Qed.

Lemma existsb_reversed {A} (f : A -> bool) (l : list A) :
  existsb f (rev l) = existsb f l.
Proof.
  induction l as [| a tl IH]; [reflexivity |].
  simpl. rewrite existsb_app, IH. simpl.
  rewrite orb_false_r. apply orb_comm.
Qed.

Lemma filter_drops {A} (f : A -> bool) (l : list A) (x : A) :
  In x l -> f x = false -> List.length (filter f l) < List.length l.
Proof.
  induction l as [| a tl IH]; intros Hin Hx; [contradiction |].
  simpl. destruct Hin as [-> | Hin].
  - rewrite Hx. pose proof (filter_length_le f tl). lia.
  - specialize (IH Hin Hx). destruct (f a); simpl; lia.
Qed.

Lemma first_occurrences_of_distinct (l : list Selection) :
  NoDup (map _model l) -> first_occurrences l = l.
Proof.
  induction l as [| s tl IH]; simpl; intro H; [reflexivity |].
  inversion H as [| m ms Hfresh Hrest]; subst.
  rewrite (IH Hrest). f_equal.
  apply forallb_filter_id. apply forallb_forall. intros x Hx.
  apply negb_true_iff, Nat.eqb_neq. intro E. apply Hfresh.
  rewrite <- E. apply in_map. exact Hx.
Qed.

Lemma first_occurrences_subset (l : list Selection) (x : Selection) :
  In x (first_occurrences l) -> In x l.
Proof.
  induction l as [| s tl IH]; simpl; [tauto |].
  intros [H | H]; [left; exact H |].
  right. apply IH. apply filter_In in H. tauto.
Qed.

(** X17: the model set of a selection list that is continued is the model
    set of its first part, followed by the selectables of the model set of
    the continuation whose entity the first part has not brought; and a
    model set is its own model set. *)
Theorem extract_models_of_a_continued_list :
  forall l1 l2 : list Selection,
    extract_models (l1 ++ l2)
    = extract_models l1
      ++ filter (unseen (map _model (extract_models l1))) (extract_models l2)
    /\
    extract_models (extract_models l1) = extract_models l1.
Proof.
  intros l1 l2. split.
  - unfold extract_models at 1. rewrite filter_app, fold_left_app.
    destruct (extract_state (filter (fun x => negb (_is_function x)) l1) [] [])
      as [new Hnew].
    assert (Hfirst : extract_models l1 = new)
      by (unfold extract_models; rewrite Hnew; reflexivity).
    rewrite Hnew, extract_loop, app_nil_r. simpl. rewrite Hfirst.
    f_equal. rewrite extract_models_first_occurrences.
    apply filter_ext. intro x. unfold unseen.
    rewrite existsb_reversed. reflexivity.
  - rewrite !extract_models_first_occurrences.
    set (m := first_occurrences (filter (fun x => negb (_is_function x)) l1)).
    assert (Hcolumns : filter (fun x => negb (_is_function x)) m = m).
    { apply forallb_filter_id. apply forallb_forall. intros x Hx.
      apply first_occurrences_subset in Hx. apply filter_In in Hx. tauto. }
    rewrite Hcolumns. apply first_occurrences_of_distinct.
    apply first_occurrences_NoDup.
Qed.

(** X18: a hidden column takes part in the join and not in the answer: its
    entity is in the model set, so it is loaded and has a label, and the
    column is not in the visible selection. *)
Theorem hidden_column_is_joined_not_shown :
  forall (models : list Selection) (s : Selection),
    In s models -> _is_function s = false -> is_hidden s = true ->
    In (_model s) (map _model (extract_models models)) /\
    ~ In s (showable_selection models) /\
    List.length (showable_selection models) < List.length models.
Proof.
  intros models s Hin Hfun Hhidden. split; [| split].
  - rewrite extract_models_first_occurrences.
    apply first_occurrences_models. apply in_map. apply filter_In.
    split; [exact Hin |]. rewrite Hfun. reflexivity.
  - unfold showable_selection. intro H. apply filter_In in H.
    destruct H as [_ H]. rewrite Hfun, Hhidden in H. discriminate H.
  - unfold showable_selection. apply (filter_drops _ models s Hin).
    rewrite Hfun, Hhidden. reflexivity.
Qed.

Lemma hidden_column_is_joined_not_shown_witness :
  In 1 (map _model
          (extract_models [Sample.service_host; Sample.column 1 "*" true])) /\
  ~ In (Sample.column 1 "*" true)
       (showable_selection [Sample.service_host; Sample.column 1 "*" true]) /\
  List.length
    (showable_selection [Sample.service_host; Sample.column 1 "*" true])
  < List.length [Sample.service_host; Sample.column 1 "*" true].
Proof.
  apply (hidden_column_is_joined_not_shown
           [Sample.service_host; Sample.column 1 "*" true]
           (Sample.column 1 "*" true));
    [right; left; reflexivity | reflexivity | reflexivity].
Defined.

(** ** Attributes of a ["*"] request *)

Section StarFacts.

Variable heap : ref -> pyval.
Variables criterions_t order_by_t : Type.
Variable uuid1 : pyval.
Variable get_objects : pyval -> pyval -> list (string * pyval) -> pyval.
Variable join_building_tuples :
  list pyval -> list pyval -> criterions_t -> list Hint -> order_by_t ->
  list (list pyval).
Variable desimplify : pyval -> pyval -> pyval.
Variable is_novabase : pyval -> bool.
Variable py_str : pyval -> string.

Lemma join_fields_attributes (models model_set : list Selection) :
  forall labels columns result,
    join_fields heap py_str models model_set labels columns = Ok result ->
    forall s, In s model_set ->
              exists attributes, selected_attributes heap s = Ok attributes.
Proof.
  induction model_set as [| first tl IH];
    intros labels columns result H s Hin; [contradiction |].
  simpl in H.
  apply bind_ok in H. destruct H as [label [_ H]].
  apply bind_ok in H. destruct H as [attributes [Hattributes H]].
  apply bind_ok in H. destruct H as [fields [_ H]].
  apply bind_ok in H. destruct H as [columns' [_ H]].
  destruct Hin as [<- | Hin].
  - exists attributes. exact Hattributes.
  - apply (IH _ _ _ H s Hin).
Qed.

(** X19: the attributes of a ["*"] request are the [_sa_class_manager] of
    the model when it has one, whatever its [class_] holds, and the one of
    its [class_] when the model has none.  A request
    with an entity for which both lookups fail does not return: listing the
    attributes raises, although no column is ever collected from them.  A
    request for one named attribute does not look at the class manager. *)
Theorem star_needs_a_class_manager :
  forall (models : list Selection) (s : Selection),
    (_attributes s <> "*" ->
     selected_attributes heap s = Ok (VList [VStr (_attributes s)])) /\
    (_attributes s = "*" ->
     forall manager,
       attr "_sa_class_manager" (heap (_model s)) = Some manager ->
       selected_attributes heap s = Ok manager) /\
    (_attributes s = "*" ->
     attr "_sa_class_manager" (heap (_model s)) = None ->
     forall class_ manager,
       attr "class_" (heap (_model s)) = Some class_ ->
       attr "_sa_class_manager" class_ = Some manager ->
       selected_attributes heap s = Ok manager) /\
    (_attributes s = "*" ->
     attr "_sa_class_manager" (heap (_model s)) = None ->
     (attr "class_" (heap (_model s)) = None \/
      exists class_,
        attr "class_" (heap (_model s)) = Some class_ /\
        attr "_sa_class_manager" class_ = None) ->
     selected_attributes heap s = Raise AttributeError /\
     (In s (extract_models models) ->
      forall criterions hints request_uuid order_by,
      exists e,
        construct_rows heap criterions_t order_by_t uuid1 get_objects
          join_building_tuples desimplify is_novabase py_str models criterions
          hints request_uuid order_by
        = Raise e)).
Proof.
  intros models s. unfold selected_attributes, model_of, py_getattr.
  split; [| split; [| split]].
  - intro Hnamed. apply String.eqb_neq in Hnamed. rewrite Hnamed.
    reflexivity.
  - intros -> manager Hmanager. simpl. rewrite Hmanager. reflexivity.
  - intros -> Hmodel class_ manager Hclass Hmanager.
    simpl. rewrite Hmodel, Hclass. simpl. rewrite Hmanager. reflexivity.
  - intros Hstar Hmodel Hclass.
    assert (Hraise : selected_attributes heap s = Raise AttributeError).
    { unfold selected_attributes, model_of, py_getattr.
      rewrite Hstar. simpl. rewrite Hmodel.
      destruct Hclass as [-> | [class_ [-> Hmanager]]]; [reflexivity |].
      simpl. rewrite Hmanager. reflexivity. }
    split; [exact Hraise |].
    intros Hin criterions hints request_uuid order_by.
    unfold construct_rows, materialize_rows.
    destruct (join_fields heap py_str models (extract_models models) [] [])
      as [fields | e] eqn:Hfields.
    + destruct (join_fields_attributes _ _ _ _ _ Hfields s Hin)
        as [attributes Hattributes].
      rewrite Hraise in Hattributes. discriminate Hattributes.
    + exists e. reflexivity.
Qed.

End StarFacts.

Lemma star_needs_a_class_manager_witness :
  selected_attributes Sample.heap Sample.service_all
  = Ok (VDict [("id", VObject "InstrumentedAttribute" []);
               ("host", VObject "InstrumentedAttribute" [])]) /\
  selected_attributes (fun _ => Sample.mapper) Sample.service_all
  = Ok (VDict [("id", VObject "InstrumentedAttribute" []);
               ("host", VObject "InstrumentedAttribute" [])]) /\
  selected_attributes Sample.heap (Sample.column 2 "*" false)
  = Raise AttributeError.
Proof.
  destruct (star_needs_a_class_manager Sample.heap unit unit (VStr "fresh")
              Sample.get_objects Sample.building_tuples Sample.desimplify
              Sample.is_novabase Sample.py_str [Sample.service_all]
              Sample.service_all) as [_ [Hown _]].
  destruct (star_needs_a_class_manager (fun _ => Sample.mapper) unit unit
              (VStr "fresh") Sample.get_objects Sample.building_tuples
              Sample.desimplify Sample.is_novabase Sample.py_str
              [Sample.service_all] Sample.service_all)
    as [_ [_ [Hclass _]]].
  destruct (star_needs_a_class_manager Sample.heap unit unit (VStr "fresh")
              Sample.get_objects Sample.building_tuples Sample.desimplify
              Sample.is_novabase Sample.py_str [Sample.column 2 "*" false]
              (Sample.column 2 "*" false)) as [_ [_ [_ Hfails]]].
  split; [apply Hown; reflexivity |].
  split.
  - apply (Hclass eq_refl eq_refl Sample.Service); reflexivity.
  - apply Hfails; [reflexivity | reflexivity | left; reflexivity].
Defined.
